(** * threads-affiliate-bot: the Publisher and the Insight Logger

    A shallow embedding of [bot/scripts/post_to_threads.py] and
    [bot/scripts/log_insights.py].

    Both scripts are straight-line glue around two outside services, the
    spreadsheet client library and the platform's REST interface.  Every
    call into one of them is a call to an oracle held in an environment
    record; the scripts themselves are state-passing functions over a world
    that carries the worksheet, the chronological trace of what the script
    did, and the counters the oracles are indexed by.

    Conventions.
    - A Python value coming out of JSON or out of a sheet cell is a [json].
      Numbers are integers ([Z]); the metrics are counts, and fractional
      numbers are left out of the model.
    - A character is a code point below 256.
    - [None] is [JNull]; a function that returns "a value or None" returns
      [json], and "a dict or None" [option dict].
    - Diagnostics printed on the way are not part of the trace, except the
      two lines the callers of the Publisher act on: the report of a row
      without content and the final JSON summary. *)

From Stdlib Require Import List String Ascii ZArith Bool Arith Lia.
From Stdlib Require Import DecimalString.
Import ListNotations.

Local Open Scope string_scope.
Local Open Scope Z_scope.


(* ===================================================================== *)
(** * Python values *)
(* ===================================================================== *)

Module Py.

#[warnings="-register-all"]
Inductive json : Type :=
| JNull
| JBool (b : bool)
| JNum (n : Z)
| JStr (s : string)
| JArr (items : list json)
| JObj (fields : list (string * json)).

(** A Python [dict] with string keys, in insertion order. *)
Definition dict := list (string * json).

(** [bool(v)]: what [if v:] tests. *)
Definition truthy (v : json) : bool :=
  match v with
  | JNull => false
  | JBool b => b
  | JNum n => negb (n =? 0)
  | JStr s => negb (s =? "")%string
  | JArr items => match items with [] => false | _ => true end
  | JObj fields => match fields with [] => false | _ => true end
  end.

(** [v == s] for a [str] [s]: only an equal string compares equal. *)
Definition is_str (v : json) (s : string) : bool :=
  match v with
  | JStr t => (t =? s)%string
  | _ => false
  end.

(** [d.get(k)] as an option, [k in d], [d.get(k, default)], [d[k] = v]. *)
Fixpoint dict_get (d : dict) (k : string) : option json :=
  match d with
  | [] => None
  | (k', v) :: rest => if (k' =? k)%string then Some v else dict_get rest k
  end.

Definition dict_has (d : dict) (k : string) : bool :=
  match dict_get d k with Some _ => true | None => false end.

Definition get_or (d : dict) (k : string) (default : json) : json :=
  match dict_get d k with Some v => v | None => default end.

Fixpoint dict_set (d : dict) (k : string) (v : json) : dict :=
  match d with
  | [] => [(k, v)]
  | (k', v') :: rest =>
      if (k' =? k)%string then (k', v) :: rest else (k', v') :: dict_set rest k v
  end.

(** [v.get(k, default)] on any value: it raises ([None]) unless [v] is a
    dict. *)
Definition py_get (v : json) (k : string) (default : json) : option json :=
  match v with
  | JObj d => Some (get_or d k default)
  | _ => None
  end.

(** [s.upper()] on the ASCII letters. *)
Definition upper_char (c : ascii) : ascii :=
  let n := nat_of_ascii c in
  if ((97 <=? n) && (n <=? 122))%nat then ascii_of_nat (n - 32) else c.

Fixpoint upper (s : string) : string :=
  match s with
  | EmptyString => EmptyString
  | String c rest => String (upper_char c) (upper rest)
  end.

(** [c.isspace()] for a code point below 256. *)
Definition is_space (c : ascii) : bool :=
  let n := nat_of_ascii c in
  (((9 <=? n) && (n <=? 13)) || ((28 <=? n) && (n <=? 32))
   || (n =? 133) || (n =? 160))%nat.

Fixpoint lstrip (s : string) : string :=
  match s with
  | EmptyString => EmptyString
  | String c rest => if is_space c then lstrip rest else s
  end.

Fixpoint rstrip (s : string) : string :=
  match s with
  | EmptyString => EmptyString
  | String c rest =>
      match rstrip rest with
      | EmptyString => if is_space c then EmptyString else String c EmptyString
      | kept => String c kept
      end
  end.

(** [s.strip()]. *)
Definition strip (s : string) : string := rstrip (lstrip s).

(** [sep.join(parts)]. *)
Fixpoint join (sep : string) (parts : list string) : string :=
  match parts with
  | [] => ""
  | [p] => p
  | p :: rest => p ++ sep ++ join sep rest
  end.

(** [needle in hay] for two strings. *)
Fixpoint contains (needle hay : string) : bool :=
  if prefix needle hay then true
  else match hay with
       | EmptyString => false
       | String _ rest => contains needle rest
       end.

(** The characters of a string, each a one-character string, as iterating
    over a [str] yields them. *)
Fixpoint chars (s : string) : list json :=
  match s with
  | EmptyString => []
  | String c rest => JStr (String c EmptyString) :: chars rest
  end.

(** What an HTTP call through [requests] comes to once [raise_for_status]
    and [response.json()] have run: either one of them raised, or there is
    a decoded body. *)
Inductive http_result : Type :=
| HttpFail
| HttpJson (body : json).

End Py.

Import Py.

(* ===================================================================== *)
(** * Running a script *)
(* ===================================================================== *)

(** A step of a script either hands a value to what follows or ends the
    process: [sys.exit(code)], or an exception nobody catches, which ends
    it with code 1. *)
Inductive outcome (A : Type) : Type :=
| Ret (a : A)
| Exit (code : Z).

Arguments Ret {A} a.
Arguments Exit {A} code.

Definition M (W A : Type) : Type := W -> outcome A * W.

Definition ret {W A} (a : A) : M W A := fun w => (Ret a, w).

Definition bind {W A B} (m : M W A) (k : A -> M W B) : M W B :=
  fun w =>
    match m w with
    | (Ret a, w') => k a w'
    | (Exit c, w') => (Exit c, w')
    end.

Definition sys_exit {W A} (code : Z) : M W A := fun w => (Exit code, w).

(** An exception that reaches the top level. *)
Definition uncaught {W A} : M W A := sys_exit 1.

Definition gets {W A} (f : W -> A) : M W A := fun w => (Ret (f w), w).

Definition modify {W} (f : W -> W) : M W unit := fun w => (Ret tt, f w).

Declare Scope script_scope.
Delimit Scope script_scope with script.
Notation "x <- m ;; k" := (bind m (fun x => k))
  (at level 61, m at next level, right associativity) : script_scope.
Notation "m ;; k" := (bind m (fun _ => k))
  (at level 61, right associativity) : script_scope.

(** The exit code of a whole script; falling off its end is code 0. *)
Definition run {W} (script : M W unit) (w : W) : Z * W :=
  match script w with
  | (Ret _, w') => (0, w')
  | (Exit c, w') => (c, w')
  end.

(** [not v] for what [os.getenv] returns. *)
Definition unset (v : option string) : bool :=
  match v with
  | None => true
  | Some s => (s =? "")%string
  end.

Definition THREADS_API_BASE_URL : string := "https://graph.threads.net/v1.0/".

(** A worksheet: rows of cells, the first row being the header row. *)
Definition grid := list (list json).

Definition decimal (n : nat) : string :=
  NilEmpty.string_of_uint (Nat.to_uint n).

(* ===================================================================== *)
(** * log_insights.py *)
(* ===================================================================== *)

Module Logger.

Local Open Scope script_scope.

(** ** Reading the insights response *)

(** ["data" in v]: a key test on a dict, a membership test on a list, a
    substring test on a string, a [TypeError] on anything else. *)
Definition py_in_data (v : json) : option bool :=
  match v with
  | JObj d => Some (dict_has d "data")
  | JArr items => Some (existsb (fun x => is_str x "data") items)
  | JStr s => Some (contains "data" s)
  | _ => None
  end.

(** [v["data"]] where ["data" in v] held: only a dict can be indexed by a
    string. *)
Definition py_index_data (v : json) : option json :=
  match v with
  | JObj d => dict_get d "data"
  | _ => None
  end.

(** [for x in v]: the items of a list, the keys of a dict, the characters
    of a string; nothing else can be iterated. *)
Definition py_iter (v : json) : option (list json) :=
  match v with
  | JArr items => Some items
  | JObj d => Some (map (fun kv => JStr (fst kv)) d)
  | JStr s => Some (chars s)
  | _ => None
  end.

(** [v[-1]] for a [v] that passed [if v]. *)
Definition py_last (v : json) : option json :=
  match v with
  | JArr items => Some (last items JNull)
  | JStr s => Some (last (chars s) JNull)
  | _ => None
  end.

(** [sum(item.get("value", 0) for item in items)]: numbers add up, a
    boolean counts as 0 or 1, anything else cannot be added to a number. *)
Fixpoint py_sum_values (items : list json) (total : Z) : option Z :=
  match items with
  | [] => Some total
  | item :: rest =>
      match py_get item "value" (JNum 0) with
      | Some (JNum n) => py_sum_values rest (total + n)
      | Some (JBool b) => py_sum_values rest (total + (if b then 1 else 0))
      | _ => None
      end
  end.

(** One turn of the loop over [insights_data["data"]].  [None]: the turn
    raised.  [name] equals one of the three metric names only when it is a
    string, so the three tests are taken on its text. *)
Definition parse_metric (parsed_insights : dict) (metric_data : json)
  : option dict :=
  match metric_data with
  | JObj md =>
      match get_or md "name" JNull with
      | JStr name =>
          let values := get_or md "values" JNull in
          let counted := ((name =? "likes") || (name =? "replies"))%string in
          if ((name =? "views")%string && dict_has md "values" && truthy values)%bool
          then
            match py_last values with
            | Some sample =>
                match py_get sample "value" (JNum 0) with
                | Some v => Some (dict_set parsed_insights name v)
                | None => None
                end
            | None => None
            end
          else if (counted && dict_has md "total_value")%bool then
            match py_get (get_or md "total_value" JNull) "value" (JNum 0) with
            | Some v => Some (dict_set parsed_insights name v)
            | None => None
            end
          else if (counted && dict_has md "values" && truthy values)%bool then
            match py_iter values with
            | Some items =>
                match py_sum_values items 0 with
                | Some total => Some (dict_set parsed_insights name (JNum total))
                | None => None
                end
            | None => None
            end
          else Some parsed_insights
      | _ => Some parsed_insights
      end
  | _ => None
  end.

Fixpoint parse_metrics (parsed_insights : dict) (data : list json)
  : option dict :=
  match data with
  | [] => Some parsed_insights
  | metric_data :: rest =>
      match parse_metric parsed_insights metric_data with
      | Some parsed' => parse_metrics parsed' rest
      | None => None
      end
  end.

(** The body of the [try] of [get_post_insights] from [response.json()]
    on; [None] is the [None] the [except] clauses return. *)
Definition parse_insights (insights_data : json) : option dict :=
  match py_in_data insights_data with
  | Some true =>
      match py_index_data insights_data with
      | Some data =>
          match py_iter data with
          | Some items => parse_metrics [] items
          | None => None
          end
      | None => None
      end
  | Some false => Some []
  | None => None
  end.

(** ** The outside world of the Logger *)

Record http_request : Type := {
  rq_url : string;
  rq_headers : list (string * string);
  rq_params : list (string * string)
}.

Record timestamp : Type := {
  year : nat; month : nat; day : nat;
  hour : nat; minute : nat; second : nat
}.

Record Env : Type := {
  argv : list string;
  getenv : string -> option string;
  path_exists : string -> bool;
  (** the answer of the platform to a GET *)
  http_get : http_request -> http_result;
  (** whether the n-th call into the spreadsheet library raises *)
  sheet_fault : nat -> bool;
  (** what the n-th [datetime.datetime.now()] returns *)
  now : nat -> timestamp
}.

Record World : Type := {
  (** the worksheet named [LOGS_WORKSHEET_NAME], if the sheet has one *)
  logs : option grid;
  sheet_calls : nat;
  clock_reads : nat;
  requests : list http_request
}.

Definition zfill (width : nat) (s : string) : string :=
  String.concat "" (repeat "0" (width - String.length s)) ++ s.

(** [now.strftime("%Y-%m-%d")] and [now.strftime("%H:%M:%S")]. *)
Definition strftime_date (t : timestamp) : string :=
  zfill 4 (decimal (year t)) ++ "-" ++ zfill 2 (decimal (month t)) ++ "-"
  ++ zfill 2 (decimal (day t)).

Definition strftime_time (t : timestamp) : string :=
  zfill 2 (decimal (hour t)) ++ ":" ++ zfill 2 (decimal (minute t)) ++ ":"
  ++ zfill 2 (decimal (second t)).

Definition headers : list json :=
  [JStr "Post_ID"; JStr "Account"; JStr "Post_Content"; JStr "Views";
   JStr "Likes"; JStr "Replies"; JStr "Date_Posted"; JStr "Time_Posted"].

Section Script.

Variable E : Env.

(** A call into the spreadsheet library: [true] when it raised. *)
Definition sheet_call : M World bool :=
  fun w =>
    (Ret (sheet_fault E (sheet_calls w)),
     {| logs := logs w; sheet_calls := S (sheet_calls w);
        clock_reads := clock_reads w; requests := requests w |}).

Definition set_logs (g : option grid) : M World unit :=
  modify (fun w =>
    {| logs := g; sheet_calls := sheet_calls w;
       clock_reads := clock_reads w; requests := requests w |}).

(** [worksheet.append_row(row)] once the call went through. *)
Definition append_row (row : list json) : M World unit :=
  g <- gets logs ;;
  set_logs (Some ((match g with Some rows => rows | None => [] end) ++ [row])%list).

Definition datetime_now : M World timestamp :=
  fun w =>
    (Ret (now E (clock_reads w)),
     {| logs := logs w; sheet_calls := sheet_calls w;
        clock_reads := S (clock_reads w); requests := requests w |}).

Definition requests_get (rq : http_request) : M World http_result :=
  fun w =>
    (Ret (http_get E rq),
     {| logs := logs w; sheet_calls := sheet_calls w;
        clock_reads := clock_reads w; requests := (requests w ++ [rq])%list |}).

(** Each of the next three returns whether it has an object to return. *)
Definition get_google_sheet_client : M World bool :=
  raised <- sheet_call ;; ret (negb raised).

Definition open_google_sheet : M World bool :=
  raised <- sheet_call ;; ret (negb raised).

(** [sheet.worksheet(name)] raises [WorksheetNotFound] when the sheet has
    no such worksheet; what the handler of that does is outside the [try],
    so an exception there goes up to the top level. *)
Definition get_or_create_worksheet : M World bool :=
  raised <- sheet_call ;;
  if raised : bool then ret false
  else
    g <- gets logs ;;
    match g with
    | Some _ => ret true
    | None =>
        raised <- sheet_call ;;
        if raised : bool then uncaught
        else
          set_logs (Some []) ;;
          raised <- sheet_call ;;
          if raised : bool then uncaught
          else append_row headers ;; ret true
    end.

Definition log_to_google_sheet (data_row : list json) : M World unit :=
  raised <- sheet_call ;;
  if raised : bool then ret tt else append_row data_row.

Definition get_post_insights (media_id access_token : string)
  : M World (option dict) :=
  rs <- requests_get
          {| rq_url := THREADS_API_BASE_URL ++ media_id ++ "/insights";
             rq_headers := [("Authorization", "Bearer " ++ access_token)];
             rq_params := [("metric", "views,likes,replies")] |} ;;
  match rs with
  | HttpFail => ret None
  | HttpJson insights_data => ret (parse_insights insights_data)
  end.

Definition data_row (post_id account_name post_content : string)
    (insights : dict) (now : timestamp) : list json :=
  [JStr post_id; JStr account_name; JStr post_content;
   get_or insights "views" (JNum 0);
   get_or insights "likes" (JNum 0);
   get_or insights "replies" (JNum 0);
   JStr (strftime_date now); JStr (strftime_time now)].

(** The statements at module level, run on import. *)
Definition configuration : M World unit :=
  let credentials := getenv E "GOOGLE_SHEETS_CREDENTIALS_PATH" in
  if (unset credentials
      || negb (path_exists E (match credentials with Some p => p | None => "" end)))%bool
  then sys_exit 1
  else if unset (getenv E "GOOGLE_SHEET_URL") then sys_exit 1
  else if (List.length (argv E) <? 4)%nat then sys_exit 1
  else if unset (getenv E ("THREADS_ACCESS_TOKEN_" ++ upper (nth 1 (argv E) "")))
  then sys_exit 1
  else ret tt.

(** The block under [if __name__ == "__main__"]. *)
Definition main : M World unit :=
  if (List.length (argv E) <? 4)%nat then sys_exit 1
  else
    let account_name_arg := nth 1 (argv E) "" in
    let post_id_arg := nth 2 (argv E) "" in
    let post_content_arg := nth 3 (argv E) "" in
    let threads_access_token_arg :=
      getenv E ("THREADS_ACCESS_TOKEN_" ++ upper account_name_arg) in
    if unset threads_access_token_arg then sys_exit 1
    else
      insights <- get_post_insights post_id_arg
                    (match threads_access_token_arg with Some t => t | None => "" end) ;;
      match insights with
      | Some ((_ :: _) as insights) =>
          now <- datetime_now ;;
          let row := data_row post_id_arg account_name_arg post_content_arg
                       insights now in
          gs_client <- get_google_sheet_client ;;
          if gs_client : bool then
            sheet <- open_google_sheet ;;
            if sheet : bool then
              worksheet <- get_or_create_worksheet ;;
              if worksheet : bool then
                log_to_google_sheet row ;; sys_exit 0
              else sys_exit 1
            else sys_exit 1
          else sys_exit 1
      | _ => sys_exit 1
      end.

Definition script : M World unit := configuration ;; main.

End Script.

End Logger.

(* ===================================================================== *)
(** * post_to_threads.py *)
(* ===================================================================== *)

Module Publisher.

Local Open Scope script_scope.

Record http_request : Type := {
  rq_url : string;
  rq_headers : list (string * string);
  rq_data : dict
}.

(** What the script did, in the order it did it.  A status event is one
    call of [update_post_status]: its arguments, the worksheet as it was
    before and after the call, and what the call returned. *)
Inductive event : Type :=
| EvCreate (rq : http_request) (rs : http_result)
| EvPublish (rq : http_request) (rs : http_result)
| EvSleep (seconds : Z)
| EvStatus (status : string) (threads_post_id : json)
           (before after : grid) (returned : bool)
| EvPrint (line : string)
| EvSummary (output_data : dict).

(** The calls to the platform so far, each with its answer. *)
Fixpoint api_calls (tr : list event) : list (http_request * http_result) :=
  match tr with
  | [] => []
  | EvCreate rq rs :: rest => (rq, rs) :: api_calls rest
  | EvPublish rq rs :: rest => (rq, rs) :: api_calls rest
  | _ :: rest => api_calls rest
  end.

Record Env : Type := {
  argv : list string;
  getenv : string -> option string;
  path_exists : string -> bool;
  (** whether the spreadsheet has the worksheet [READY_TO_POST_WORKSHEET_NAME] *)
  worksheet_found : bool;
  (** what [get_all_records] makes of the worksheet: one dict per row
      under the header row, keyed by the headers *)
  records_of : grid -> list dict;
  (** whether the n-th call into the spreadsheet library raises *)
  sheet_fault : nat -> bool;
  (** the answer of the platform to a POST, given the calls before it *)
  platform : list (http_request * http_result) -> http_request -> http_result
}.

Record World : Type := {
  sheet : grid;
  sheet_calls : nat;
  trace : list event
}.

(** ** The worksheet operations the script uses *)

(** The text a cell shows, which is what the library reads a worksheet
    as: a string as it is, a number in plain decimal notation, a boolean
    in capitals, an empty cell as the empty string. *)
Definition shown (c : json) : string :=
  match c with
  | JStr s => s
  | JNum n => NilEmpty.string_of_int (Z.to_int n)
  | JBool true => "TRUE"
  | JBool false => "FALSE"
  | _ => ""
  end.

(** [worksheet.find(post_id, in_column=1)]: the 1-based number of the
    first row whose first cell shows [post_id]. *)
Fixpoint find_from (row_index : nat) (rows : grid) (post_id : string)
  : option nat :=
  match rows with
  | [] => None
  | row :: rest =>
      match row with
      | c :: _ =>
          if (shown c =? post_id)%string then Some row_index
          else find_from (S row_index) rest post_id
      | [] => find_from (S row_index) rest post_id
      end
  end.

Definition find (g : grid) (post_id : string) : option nat :=
  find_from 1 g post_id.

(** [worksheet.row_values(n)], [n] counted from 1. *)
Definition row_values (g : grid) (n : nat) : list json :=
  nth (n - 1) g [].

(** [headers.index(name)] over the texts of the header row, counted from
    0; [None] is the [ValueError]. *)
Fixpoint index_from (i : nat) (headers : list json) (name : string)
  : option nat :=
  match headers with
  | [] => None
  | h :: rest =>
      if (shown h =? name)%string then Some i else index_from (S i) rest name
  end.

Definition index (headers : list json) (name : string) : option nat :=
  index_from 0 headers name.

Definition block_keys : list string :=
  map (fun i => "Block_" ++ decimal i ++ "_Content") [1; 2; 3; 4]%nat.

(** [v.strip()]: only a [str] has it. *)
Definition py_strip (v : json) : option string :=
  match v with
  | JStr s => Some (strip s)
  | _ => None
  end.

(** The first list comprehension over the four block columns; [None]: a
    cell was not a string and [strip] raised. *)
Fixpoint stripped_blocks (post_data : dict) (keys : list string)
  : option (list string) :=
  match keys with
  | [] => Some []
  | k :: rest =>
      match py_strip (get_or post_data k (JStr "")) with
      | Some b =>
          match stripped_blocks post_data rest with
          | Some bs => Some (b :: bs)
          | None => None
          end
      | None => None
      end
  end.

(** The second one: [[block for block in post_blocks_arg if block]]. *)
Definition non_empty (blocks : list string) : list string :=
  filter (fun block => negb (block =? "")%string) blocks.

(** The row of [records] whose [Post_ID] is [post_id]. *)
Fixpoint find_record (records : list dict) (post_id : string) : option dict :=
  match records with
  | [] => None
  | row :: rest =>
      if is_str (get_or row "Post_ID" JNull) post_id then Some row
      else find_record rest post_id
  end.

Definition newline : string := String (ascii_of_nat 10) EmptyString.

Section Script.

Variable E : Env.

Definition sheet_call : M World bool :=
  fun w =>
    (Ret (sheet_fault E (sheet_calls w)),
     {| sheet := sheet w; sheet_calls := S (sheet_calls w); trace := trace w |}).

Definition log (ev : event) : M World unit :=
  modify (fun w =>
    {| sheet := sheet w; sheet_calls := sheet_calls w;
       trace := (trace w ++ [ev])%list |}).

(** [requests.post(...)], [raise_for_status()] and [response.json()]. *)
Definition requests_post (tag : http_request -> http_result -> event)
    (rq : http_request) : M World http_result :=
  tr <- gets trace ;;
  let rs := platform E (api_calls tr) rq in
  log (tag rq rs) ;; ret rs.

Definition time_sleep (seconds : Z) : M World unit := log (EvSleep seconds).

Definition print (line : string) : M World unit := log (EvPrint line).

(** [worksheet.batch_update(updates)].  The library takes a list of
    dicts, each a range with its values, and reads the range of every item
    before it sends anything: on the tuples the script builds that raises.
    [true]: the call raised. *)
Definition batch_update (updates : list (nat * nat * json)) : M World bool :=
  raised <- sheet_call ;;
  ret (raised || match updates with [] => false | _ :: _ => true end).

Definition get_google_sheet_client : M World bool :=
  raised <- sheet_call ;; ret (negb raised).

Definition open_google_sheet : M World bool :=
  raised <- sheet_call ;; ret (negb raised).

Definition get_worksheet : M World bool :=
  raised <- sheet_call ;;
  if raised : bool then ret false else ret (worksheet_found E).

Definition get_post_by_id (post_id : string) : M World (option dict) :=
  raised <- sheet_call ;;
  if raised : bool then ret None
  else
    g <- gets sheet ;;
    ret (find_record (records_of E g) post_id).

(** The three library calls inside the [try] of [update_post_status]. *)
Definition try_update (post_id status : string) (threads_post_id : json)
  : M World bool :=
  raised <- sheet_call ;;
  if raised : bool then ret false
  else
    g <- gets sheet ;;
    match find g post_id with
    | Some row_index =>
        raised <- sheet_call ;;
        if raised : bool then ret false
        else
          let headers := row_values g 1 in
          match index headers "Status" with
          | Some i =>
              let status_col_index := S i in
              let threads_post_id_col_index :=
                option_map S (index headers "Threads_Post_ID") in
              let updates :=
                ((row_index, status_col_index, JStr status) ::
                 match threads_post_id_col_index with
                 | Some col =>
                     if truthy threads_post_id
                     then [(row_index, col, threads_post_id)] else []
                 | None => []
                 end)%list in
              raised <- batch_update updates ;;
              if raised : bool then ret false else ret true
          | None => ret false
          end
    | None => ret false
    end.

Definition update_post_status (post_id status : string)
    (threads_post_id : json) : M World bool :=
  before <- gets sheet ;;
  returned <- try_update post_id status threads_post_id ;;
  after <- gets sheet ;;
  log (EvStatus status threads_post_id before after returned) ;;
  ret returned.

Definition create_request (user_id text_content access_token : string)
    (reply_to_id : json) : http_request :=
  {| rq_url := THREADS_API_BASE_URL ++ user_id ++ "/threads";
     rq_headers := [("Authorization", "Bearer " ++ access_token);
                    ("Content-Type", "application/json")];
     rq_data := ([("media_type", JStr "TEXT"); ("text", JStr text_content)]
                 ++ (if truthy reply_to_id
                     then [("reply_to_id", reply_to_id)] else []))%list |}.

Definition publish_request (user_id : string) (creation_id : json)
    (access_token : string) : http_request :=
  {| rq_url := THREADS_API_BASE_URL ++ user_id ++ "/threads_publish";
     rq_headers := [("Authorization", "Bearer " ++ access_token)];
     rq_data := [("creation_id", creation_id)] |}.

(** [response_data.get("id")] if it is there and passes [if], else [None]. *)
Definition id_of (rs : http_result) : json :=
  match rs with
  | HttpFail => JNull
  | HttpJson response_data =>
      match py_get response_data "id" JNull with
      | Some id => if truthy id then id else JNull
      | None => JNull
      end
  end.

Definition create_media_container (user_id text_content access_token : string)
    (reply_to_id : json) : M World json :=
  rs <- requests_post EvCreate
          (create_request user_id text_content access_token reply_to_id) ;;
  ret (id_of rs).

Definition publish_media_container (user_id : string) (creation_id : json)
    (access_token : string) : M World json :=
  rs <- requests_post EvPublish
          (publish_request user_id creation_id access_token) ;;
  ret (id_of rs).

(** The [for i, block_content in enumerate(post_blocks_arg)] loop, from
    turn [i] on; it returns [root_post_id]. *)
Fixpoint post_chain (post_id user_id access_token : string) (i : nat)
    (blocks : list string) (last_post_id root_post_id : json) : M World json :=
  match blocks with
  | [] => ret root_post_id
  | block_content :: rest =>
      let current_reply_to_id := last_post_id in
      container_id <- create_media_container user_id block_content
                        access_token current_reply_to_id ;;
      if truthy container_id then
        let publish_delay := if (i =? 0)%nat then 30 else 10 in
        time_sleep publish_delay ;;
        published_post_id <- publish_media_container user_id container_id
                               access_token ;;
        if truthy published_post_id then
          post_chain post_id user_id access_token (S i) rest
            published_post_id
            (if (i =? 0)%nat then published_post_id else root_post_id)
        else
          update_post_status post_id "Error" JNull ;; sys_exit 1
      else
        update_post_status post_id "Error" JNull ;; sys_exit 1
  end.

(** The statements at module level, run on import. *)
Definition configuration : M World unit :=
  let credentials := getenv E "GOOGLE_SHEETS_CREDENTIALS_PATH" in
  if (unset credentials
      || negb (path_exists E (match credentials with Some p => p | None => "" end)))%bool
  then sys_exit 1
  else if unset (getenv E "GOOGLE_SHEET_URL") then sys_exit 1
  else if (List.length (argv E) <? 3)%nat then sys_exit 1
  else if unset (getenv E ("THREADS_ACCESS_TOKEN_" ++ upper (nth 1 (argv E) "")))
  then sys_exit 1
  else if unset (getenv E ("THREADS_USER_ID_" ++ upper (nth 1 (argv E) "")))
  then sys_exit 1
  else ret tt.

(** From [# Extract block content from the sheet data] to the end. *)
Definition publish (account_name_arg sheet_post_id_arg user_id access_token
    : string) (post_data : dict) : M World unit :=
  match stripped_blocks post_data block_keys with
  | None => uncaught
  | Some post_blocks =>
      let post_blocks_arg := non_empty post_blocks in
      match post_blocks_arg with
      | [] =>
          print ("Error: No valid block content found for Post ID '"
                 ++ sheet_post_id_arg ++ "'.") ;;
          update_post_status sheet_post_id_arg "Error" JNull ;;
          sys_exit 1
      | _ :: _ =>
          let full_post_content_for_logging :=
            join (newline ++ newline) post_blocks_arg in
          update_post_status sheet_post_id_arg "Posting" JNull ;;
          root_post_id <- post_chain sheet_post_id_arg user_id access_token
                            0 post_blocks_arg JNull JNull ;;
          if truthy root_post_id then
            update_post_status sheet_post_id_arg "Posted" root_post_id ;;
            log (EvSummary
                   [("threads_post_id", root_post_id);
                    ("account_name", JStr account_name_arg);
                    ("full_post_content", JStr full_post_content_for_logging)]) ;;
            sys_exit 0
          else sys_exit 1
      end
  end.

(** The block under [if __name__ == "__main__"]. *)
Definition main : M World unit :=
  if (List.length (argv E) <? 3)%nat then sys_exit 1
  else
    let account_name_arg := nth 1 (argv E) "" in
    let sheet_post_id_arg := nth 2 (argv E) "" in
    let threads_access_token_arg :=
      getenv E ("THREADS_ACCESS_TOKEN_" ++ upper account_name_arg) in
    let threads_user_id_arg :=
      getenv E ("THREADS_USER_ID_" ++ upper account_name_arg) in
    if unset threads_access_token_arg then sys_exit 1
    else if unset threads_user_id_arg then sys_exit 1
    else
      gs_client <- get_google_sheet_client ;;
      if negb gs_client then sys_exit 1
      else
        sheet <- open_google_sheet ;;
        if negb sheet then sys_exit 1
        else
          ready_to_post_worksheet <- get_worksheet ;;
          if negb ready_to_post_worksheet then sys_exit 1
          else
            post_data <- get_post_by_id sheet_post_id_arg ;;
            match post_data with
            | Some ((_ :: _) as post_data) =>
                publish account_name_arg sheet_post_id_arg
                  (match threads_user_id_arg with Some u => u | None => "" end)
                  (match threads_access_token_arg with Some t => t | None => "" end)
                  post_data
            | _ => sys_exit 1
            end.

Definition script : M World unit := configuration ;; main.

End Script.

End Publisher.

(* ===================================================================== *)
(** * The vocabulary of the statements about the Insight Logger *)
(* ===================================================================== *)

Module LoggerTerms.

Import Logger.

(** The response of the spec's example: views as a series of two samples,
    likes as an aggregate, nothing on replies. *)
Definition example_response : json :=
  JObj [("data", JArr [
    JObj [("name", JStr "views");
          ("values", JArr [JObj [("value", JNum 5)]; JObj [("value", JNum 12)]])];
    JObj [("name", JStr "likes");
          ("total_value", JObj [("value", JNum 3)])]])].

(** An entry of the response that says something about metric [m]: it
    bears the name and has a series or an aggregate. *)
Definition reports (m : string) (metric_data : json) : bool :=
  match metric_data with
  | JObj md =>
      is_str (get_or md "name" JNull) m
      && (dict_has md "values" || dict_has md "total_value")
  | _ => false
  end.

(** The entries of a response, when it has a list of them. *)
Definition entries (insights_data : json) : list json :=
  match py_index_data insights_data with
  | Some data => match py_iter data with Some items => items | None => [] end
  | None => []
  end.

Definition reported (m : string) (insights_data : json) : bool :=
  existsb (reports m) (entries insights_data).

(** The entry for which a turn of the loop stores a value under [m]. *)
Definition extracts (m : string) (metric_data : json) : bool :=
  match metric_data with
  | JObj md =>
      let values := get_or md "values" JNull in
      is_str (get_or md "name" JNull) m
      && (((m =? "views")%string && dict_has md "values" && truthy values)
          || (((m =? "likes") || (m =? "replies"))%string
              && (dict_has md "total_value"
                  || (dict_has md "values" && truthy values))))
  | _ => false
  end.

(** The two shapes in which the response reports a metric, and a response
    made of given entries. *)
Definition sample (v : json) : json := JObj [("value", v)].

Definition series (m : string) (samples : list json) : json :=
  JObj [("name", JStr m); ("values", JArr samples)].

Definition aggregate (m : string) (v : json) : json :=
  JObj [("name", JStr m); ("total_value", JObj [("value", v)])].

Definition response (metric_entries : list json) : json :=
  JObj [("data", JArr metric_entries)].

(** What the log row shows for metric [m] after a fetch of
    [insights_data]; [None] when the fetch returns [None]. *)
Definition extracted (insights_data : json) (m : string) : option json :=
  match parse_insights insights_data with
  | Some insights => Some (get_or insights m (JNum 0))
  | None => None
  end.

(** The extraction policy as the specification words it: a series gives
    its last sample, an aggregate gives itself. *)
Definition takes_last_sample (m : string) (samples : list json) : Prop :=
  extracted (response [series m samples]) m
  = py_get (last samples JNull) "value" (JNum 0).

Definition takes_aggregate (m : string) (v : json) : Prop :=
  extracted (response [aggregate m v]) m = Some v.

(** A run of the Logger for account [acct], post 17890 and text [hello],
    with every variable of the configuration set. *)
Definition example_time : timestamp :=
  {| year := 2025; month := 3; day := 9; hour := 7; minute := 5; second := 0 |}.

Definition example_env (faults : nat -> bool) (rs : http_result) : Env :=
  {| argv := ["log_insights.py"; "acct"; "17890"; "hello"];
     getenv := fun k =>
       if (k =? "GOOGLE_SHEETS_CREDENTIALS_PATH")%string then Some "/key.json"
       else if (k =? "GOOGLE_SHEET_URL")%string then Some "https://sheet"
       else if (k =? "THREADS_ACCESS_TOKEN_ACCT")%string then Some "token"
       else None;
     path_exists := fun _ => true;
     http_get := fun _ => rs;
     sheet_fault := faults;
     now := fun _ => example_time |}.

Definition start (g : option grid) : World :=
  {| logs := g; sheet_calls := 0; clock_reads := 0; requests := [] |}.

(** The rows of the log worksheet, none when there is no worksheet. *)
Definition rows (w : World) : grid :=
  match logs w with Some g => g | None => [] end.

(** The request for the insights of the post named on the command line,
    and the mapping the fetch makes of the platform's answer to it. *)
Definition insights_request (E : Env) : http_request :=
  {| rq_url := THREADS_API_BASE_URL ++ nth 2 (argv E) "" ++ "/insights";
     rq_headers :=
       [("Authorization",
         "Bearer " ++ match getenv E ("THREADS_ACCESS_TOKEN_"
                                       ++ upper (nth 1 (argv E) "")) with
                      | Some token => token
                      | None => ""
                      end)];
     rq_params := [("metric", "views,likes,replies")] |}.

Definition fetched (E : Env) : option dict :=
  match http_get E (insights_request E) with
  | HttpFail => None
  | HttpJson insights_data => parse_insights insights_data
  end.

(** The log row for the command line of [E], a fetched mapping and a
    timestamp, cell by cell under the columns of [headers]. *)
Definition logged_row (E : Env) (insights : dict) (t : timestamp)
  : list json :=
  [JStr (nth 2 (argv E) "");              (* Post_ID *)
   JStr (nth 1 (argv E) "");              (* Account *)
   JStr (nth 3 (argv E) "");              (* Post_Content *)
   get_or insights "views" (JNum 0);      (* Views *)
   get_or insights "likes" (JNum 0);      (* Likes *)
   get_or insights "replies" (JNum 0);    (* Replies *)
   JStr (strftime_date t);                (* Date_Posted *)
   JStr (strftime_time t)].               (* Time_Posted *)

(** ** Reaching the fetch and the worksheet *)

(** Every check of the configuration passes. *)
Definition configured (E : Env) : bool :=
  let credentials := getenv E "GOOGLE_SHEETS_CREDENTIALS_PATH" in
  negb (unset credentials)
  && path_exists E (match credentials with Some p => p | None => "" end)
  && negb (unset (getenv E "GOOGLE_SHEET_URL"))
  && negb (List.length (argv E) <? 4)%nat
  && negb (unset (getenv E ("THREADS_ACCESS_TOKEN_" ++ upper (nth 1 (argv E) "")))).

(** The fetch returned a mapping that passes [if insights]. *)
Definition usable (fetch : option dict) : bool :=
  match fetch with
  | Some (_ :: _) => true
  | _ => false
  end.

(** The calls into the spreadsheet library that lead to a worksheet object
    go through: the client, the spreadsheet, the lookup of the worksheet,
    and, where the spreadsheet has no log worksheet yet, its creation and
    the writing of its header row. *)
Definition worksheet_obtained (E : Env) (w : World) : bool :=
  let n := sheet_calls w in
  negb (sheet_fault E n) && negb (sheet_fault E (S n))
  && negb (sheet_fault E (S (S n)))
  && match logs w with
     | Some _ => true
     | None => negb (sheet_fault E (S (S (S n))))
               && negb (sheet_fault E (S (S (S (S n)))))
     end.

(** The number of the call that appends the data row, in a run that gets
    that far: the fourth of the run, or the sixth when the run has to
    create the worksheet and write its header row first. *)
Definition append_call (w : World) : nat :=
  (match logs w with Some _ => 3 | None => 5 end + sheet_calls w)%nat.

(** The names under which the fetch stores values, and the keys of a
    mapping in the order they were first stored. *)
Definition metric_names : list string := ["views"; "likes"; "replies"].

Definition keys (d : dict) : list string := map fst d.

(** An environment in which one variable of the configuration is missing:
    the token of the account. *)
Definition tokenless_env (rs : http_result) : Env :=
  {| argv := ["log_insights.py"; "acct"; "17890"; "hello"];
     getenv := fun k =>
       if (k =? "GOOGLE_SHEETS_CREDENTIALS_PATH")%string then Some "/key.json"
       else if (k =? "GOOGLE_SHEET_URL")%string then Some "https://sheet"
       else None;
     path_exists := fun _ => true;
     http_get := fun _ => rs;
     sheet_fault := fun _ => false;
     now := fun _ => example_time |}.

(** ** The fetch result and the log row *)

(** The fetch result holds [v] under [m]: what the specification says of
    the three metrics of its example. *)
Definition fetch_holds (insights_data : json) (m : string) (v : json) : Prop :=
  exists insights,
    parse_insights insights_data = Some insights
    /\ dict_get insights m = Some v.

(** The position of each metric in a log row, counted from 0. *)
Definition metric_columns : list (string * nat) :=
  [("views", 3%nat); ("likes", 4%nat); ("replies", 5%nat)].

End LoggerTerms.

(* ===================================================================== *)
(** * The vocabulary of the statements about the Publisher *)
(* ===================================================================== *)

Module PublisherTerms.

Import Publisher.

(** The world after more events. *)
Definition add_events (w : World) (evs : list event) : World :=
  {| sheet := sheet w; sheet_calls := sheet_calls w;
     trace := (trace w ++ evs)%list |}.

(** The world after [n] more calls into the spreadsheet library. *)
Definition add_calls (w : World) (n : nat) : World :=
  {| sheet := sheet w; sheet_calls := (sheet_calls w + n)%nat;
     trace := trace w |}.

(** The world a run starts in. *)
Definition start (g : grid) : World :=
  {| sheet := g; sheet_calls := 0; trace := [] |}.

(** ** Reaching the posting stage *)

(** Every check of the configuration passes. *)
Definition configured (E : Env) : bool :=
  let credentials := getenv E "GOOGLE_SHEETS_CREDENTIALS_PATH" in
  let account := upper (nth 1 (argv E) "") in
  negb (unset credentials)
  && path_exists E (match credentials with Some p => p | None => "" end)
  && negb (unset (getenv E "GOOGLE_SHEET_URL"))
  && negb (List.length (argv E) <? 3)%nat
  && negb (unset (getenv E ("THREADS_ACCESS_TOKEN_" ++ account)))
  && negb (unset (getenv E ("THREADS_USER_ID_" ++ account))).

(** The four calls into the spreadsheet library that lead to the row go
    through, and the worksheet is there. *)
Definition sheet_readable (E : Env) (w : World) : bool :=
  let n := sheet_calls w in
  negb (sheet_fault E n) && negb (sheet_fault E (S n))
  && negb (sheet_fault E (S (S n))) && worksheet_found E
  && negb (sheet_fault E (S (S (S n)))).

(** The row the script gets to work on, if it gets one. *)
Definition row_read (E : Env) (w : World) : option dict :=
  if (configured E && sheet_readable E w)%bool then
    match find_record (records_of E (sheet w)) (nth 2 (argv E) "") with
    | Some ((_ :: _) as post_data) => Some post_data
    | _ => None
    end
  else None.

Definition user_id (E : Env) : string :=
  match getenv E ("THREADS_USER_ID_" ++ upper (nth 1 (argv E) "")) with
  | Some u => u
  | None => ""
  end.

Definition access_token (E : Env) : string :=
  match getenv E ("THREADS_ACCESS_TOKEN_" ++ upper (nth 1 (argv E) "")) with
  | Some t => t
  | None => ""
  end.

(** The chain of a row: its four block cells stripped, the empty ones
    dropped.  [None]: a block cell is not text. *)
Definition chain_of (post_data : dict) : option (list string) :=
  match stripped_blocks post_data block_keys with
  | Some post_blocks => Some (non_empty post_blocks)
  | None => None
  end.

(** ** What the trace shows *)

Definition is_create (ev : event) : bool :=
  match ev with EvCreate _ _ => true | _ => false end.

(** The answers of the platform to the create calls and to the publish
    calls of a trace. *)
Fixpoint creates (tr : list event) : list (http_request * http_result) :=
  match tr with
  | [] => []
  | EvCreate rq rs :: rest => (rq, rs) :: creates rest
  | _ :: rest => creates rest
  end.

Fixpoint publishes (tr : list event) : list (http_request * http_result) :=
  match tr with
  | [] => []
  | EvPublish rq rs :: rest => (rq, rs) :: publishes rest
  | _ :: rest => publishes rest
  end.

(** A call succeeded when its answer carries an identifier. *)
Definition succeeded (rs : http_result) : bool := truthy (id_of rs).

Definition all_succeeded (tr : list event) : bool :=
  forallb (fun call => succeeded (snd call)) (api_calls tr).

(** The reply target and the text a create request carries, and the
    container a publish request names. *)
Definition reply_target (rq : http_request) : option json :=
  dict_get (rq_data rq) "reply_to_id".

Definition text_of (rq : http_request) : option json :=
  dict_get (rq_data rq) "text".

Definition container_of (rq : http_request) : option json :=
  dict_get (rq_data rq) "creation_id".

(** What stands for a call that is not there. *)
Definition no_call : http_request * http_result :=
  ({| rq_url := ""; rq_headers := []; rq_data := [] |}, HttpFail).

(** First of the one, first of the other, second of the one, ... *)
Fixpoint interleave {A} (xs ys : list A) : list A :=
  match xs, ys with
  | x :: xs', y :: ys' => x :: y :: interleave xs' ys'
  | _, _ => []
  end.

(** The statuses the script asked the sheet to take, in order, and the
    root identifier it asked to record with each. *)
Fixpoint status_writes (tr : list event) : list (string * json) :=
  match tr with
  | [] => []
  | EvStatus status threads_post_id _ _ _ :: rest =>
      (status, threads_post_id) :: status_writes rest
  | _ :: rest => status_writes rest
  end.

(** The delay before the publish call of turn [i]. *)
Definition publish_delay (i : nat) : Z := if (i =? 0)%nat then 30 else 10.

(** The events of the turns of the loop that went through, from turn [i]
    on, given the two answers of each turn: create with the block and the
    identifier published by the turn before as reply target, wait, publish
    the container just created. *)
Fixpoint chain_events (user access : string) (i : nat) (blocks : list string)
    (last_post_id : json) (answers : list (http_result * http_result))
  : list event :=
  match blocks, answers with
  | block :: blocks', (created, published) :: answers' =>
      EvCreate (create_request user block access last_post_id) created
      :: EvSleep (publish_delay i)
      :: EvPublish (publish_request user (id_of created) access) published
      :: chain_events user access (S i) blocks' (id_of published) answers'
  | _, _ => []
  end.

(** The events of a turn that failed: at the create call, or at the
    publish call. *)
Definition failed_turn (user access : string) (i : nat) (block : string)
    (last_post_id : json) (created : http_result)
    (published : option http_result) : list event :=
  EvCreate (create_request user block access last_post_id) created
  :: match published with
     | None => []
     | Some published =>
         [EvSleep (publish_delay i);
          EvPublish (publish_request user (id_of created) access) published]
     end.

Definition both_succeeded (answer : http_result * http_result) : bool :=
  succeeded (fst answer) && succeeded (snd answer).

(** A turn fails at its create call, or, the container created, at its
    publish call. *)
Definition turn_failed (created : http_result)
    (published : option http_result) : Prop :=
  match published with
  | None => succeeded created = false
  | Some published => succeeded created = true /\ succeeded published = false
  end.

(** [root_post_id] after the turns from [i] on: the first turn of all sets
    it, the others leave it. *)
Definition root_after (i : nat) (root_post_id : json)
    (answers : list (http_result * http_result)) : json :=
  match answers with
  | (_, published) :: _ =>
      if (i =? 0)%nat then id_of published else root_post_id
  | [] => root_post_id
  end.

(** The identifier turn [i] leaves behind for the next one. *)
Definition last_published (last_post_id : json)
    (answers : list (http_result * http_result)) : json :=
  last (map (fun answer => id_of (snd answer)) answers) last_post_id.

(** ** The status cell of a row *)

Definition status_cell (g : grid) (post_id : string) : option json :=
  match find g post_id, index (row_values g 1) "Status" with
  | Some row_index, Some i => nth_error (row_values g row_index) i
  | _, _ => None
  end.



(** What both failure branches of the loop do. *)
Definition on_error (E : Env) (post_id : string) : M World json :=
  (update_post_status E post_id "Error" JNull ;; sys_exit 1)%script.

(** The status event of a call that returned [False] and left the
    worksheet [g] as it was. *)
Definition attempt (status : string) (threads_post_id : json) (g : grid)
  : event :=
  EvStatus status threads_post_id g g false.

Definition no_content_report (post_id : string) : string :=
  "Error: No valid block content found for Post ID '" ++ post_id ++ "'.".

Definition summary (E : Env) (root_post_id : json) (blocks : list string)
  : event :=
  EvSummary [("threads_post_id", root_post_id);
             ("account_name", JStr (nth 1 (argv E) ""));
             ("full_post_content", JStr (join (newline ++ newline) blocks))].

(** The five ways a run of the script from the worksheet [g] can go, with
    the exit code and the world each one ends in. *)
Variant run_shape (E : Env) (g : grid) (code : Z) (w' : World) : Prop :=
| NoRow :
    row_read E (start g) = None ->
    trace w' = [] -> sheet w' = g -> code = 1 ->
    run_shape E g code w'
| NoText post_data :
    row_read E (start g) = Some post_data ->
    chain_of post_data = None ->
    trace w' = [] -> sheet w' = g -> code = 1 ->
    run_shape E g code w'
| NoBlock post_data :
    row_read E (start g) = Some post_data ->
    chain_of post_data = Some [] ->
    trace w' = [EvPrint (no_content_report (nth 2 (argv E) ""));
                attempt "Error" JNull g] ->
    sheet w' = g -> code = 1 ->
    (4 < sheet_calls w' <= 7)%nat ->
    run_shape E g code w'
| Posted post_data blocks answers :
    row_read E (start g) = Some post_data ->
    chain_of post_data = Some blocks ->
    blocks <> [] ->
    List.length answers = List.length blocks ->
    forallb both_succeeded answers = true ->
    trace w' = (attempt "Posting" JNull g
                :: chain_events (user_id E) (access_token E) 0 blocks JNull
                     answers
                ++ [attempt "Posted" (root_after 0 JNull answers) g;
                    summary E (root_after 0 JNull answers) blocks])%list ->
    sheet w' = g -> code = 0 ->
    run_shape E g code w'
| Failed post_data blocks k answers block created published :
    row_read E (start g) = Some post_data ->
    chain_of post_data = Some blocks ->
    nth_error blocks k = Some block ->
    List.length answers = k ->
    forallb both_succeeded answers = true ->
    turn_failed created published ->
    trace w' = (attempt "Posting" JNull g
                :: chain_events (user_id E) (access_token E) 0
                     (firstn k blocks) JNull answers
                ++ failed_turn (user_id E) (access_token E) k block
                     (last_published JNull answers) created published
                ++ [attempt "Error" JNull g])%list ->
    sheet w' = g -> code = 1 ->
    run_shape E g code w'.

(** ** A sheet, an account and three platforms to run the script on *)

Definition ready_headers : list json :=
  [JStr "Post_ID"; JStr "Block_1_Content"; JStr "Block_2_Content";
   JStr "Block_3_Content"; JStr "Block_4_Content"; JStr "Status";
   JStr "Threads_Post_ID"].

(** A row with three blocks, the second of them blank. *)
Definition example_sheet : grid :=
  [ready_headers;
   [JStr "p1"; JStr " first "; JStr "   "; JStr "third"; JStr "";
    JStr "Ready"; JStr ""]].


Definition cell_text (c : json) : string :=
  match c with JStr s => s | _ => "" end.

(** Records keyed by the header row, every cell kept as it is. *)
Definition plain_records (g : grid) : list dict :=
  match g with
  | [] => []
  | headers :: rows => map (fun row => combine (map cell_text headers) row) rows
  end.

(** The platform that answers its n-th call with the identifier "id" n. *)
Definition numbering (history : list (http_request * http_result))
    (rq : http_request) : http_result :=
  HttpJson (JObj [("id", JStr ("id" ++ decimal (List.length history)))]).

(** The platform whose call number [k] fails, the others being numbered. *)
Definition failing_at (k : nat)
    (history : list (http_request * http_result)) (rq : http_request)
  : http_result :=
  if (List.length history =? k)%nat then HttpFail else numbering history rq.

Definition example_env (faults : nat -> bool)
    (answer : list (http_request * http_result) -> http_request -> http_result)
  : Env :=
  {| argv := ["post_to_threads.py"; "acct"; "p1"];
     getenv := fun k =>
       if (k =? "GOOGLE_SHEETS_CREDENTIALS_PATH")%string then Some "/key.json"
       else if (k =? "GOOGLE_SHEET_URL")%string then Some "https://sheet"
       else if (k =? "THREADS_ACCESS_TOKEN_ACCT")%string then Some "token"
       else if (k =? "THREADS_USER_ID_ACCT")%string then Some "42"
       else None;
     path_exists := fun _ => true;
     worksheet_found := true;
     records_of := plain_records;
     sheet_fault := faults;
     platform := answer |}.

Definition no_fault (n : nat) : bool := false.

(** The row of [example_sheet] as [plain_records] gives it. *)
Definition example_row : dict :=
  [("Post_ID", JStr "p1"); ("Block_1_Content", JStr " first ");
   ("Block_2_Content", JStr "   "); ("Block_3_Content", JStr "third");
   ("Block_4_Content", JStr ""); ("Status", JStr "Ready");
   ("Threads_Post_ID", JStr "")].

(** ** More of what the trace shows *)

(** The JSON summaries the script printed. *)
Fixpoint summaries (tr : list event) : list dict :=
  match tr with
  | [] => []
  | EvSummary output_data :: rest => output_data :: summaries rest
  | _ :: rest => summaries rest
  end.

(** The waits of the script, in seconds. *)
Fixpoint sleeps (tr : list event) : list Z :=
  match tr with
  | [] => []
  | EvSleep seconds :: rest => seconds :: sleeps rest
  | _ :: rest => sleeps rest
  end.

(** The calls of [update_post_status] that returned [True]. *)
Fixpoint updates_done (tr : list event) : nat :=
  match tr with
  | [] => 0
  | EvStatus _ _ _ _ true :: rest => S (updates_done rest)
  | _ :: rest => updates_done rest
  end.

(** The four calls into the spreadsheet library that lead to the records,
    counted from the start of a run, and the worksheet lookup. *)
Definition records_read (E : Env) : bool :=
  negb (sheet_fault E 0) && negb (sheet_fault E 1) && negb (sheet_fault E 2)
  && worksheet_found E && negb (sheet_fault E 3).

(** A value that is not a [str]. *)
Definition not_text (v : json) : bool :=
  match v with JStr _ => false | _ => true end.

(** ** More sheets to run the script on *)

(** A row whose second block cell came out of the sheet as a number. *)
Definition number_sheet : grid :=
  [ready_headers;
   [JStr "p1"; JStr "first"; JNum 7; JStr ""; JStr ""; JStr "Ready"; JStr ""]].

Definition number_row : dict :=
  [("Post_ID", JStr "p1"); ("Block_1_Content", JStr "first");
   ("Block_2_Content", JNum 7); ("Block_3_Content", JStr "");
   ("Block_4_Content", JStr ""); ("Status", JStr "Ready");
   ("Threads_Post_ID", JStr "")].

(** A worksheet whose first column is a running number, the post
    identifiers standing in the second. *)
Definition numbered_sheet : grid :=
  [[JStr "No"; JStr "Post_ID"; JStr "Block_1_Content"; JStr "Status";
    JStr "Threads_Post_ID"];
   [JStr "1"; JStr "p1"; JStr "hello"; JStr "Ready"; JStr ""]].

(** An environment in which the user identifier of the account is not
    set. *)
Definition userless_env : Env :=
  {| argv := ["post_to_threads.py"; "acct"; "p1"];
     getenv := fun k =>
       if (k =? "GOOGLE_SHEETS_CREDENTIALS_PATH")%string then Some "/key.json"
       else if (k =? "GOOGLE_SHEET_URL")%string then Some "https://sheet"
       else if (k =? "THREADS_ACCESS_TOKEN_ACCT")%string then Some "token"
       else None;
     path_exists := fun _ => true;
     worksheet_found := true;
     records_of := plain_records;
     sheet_fault := no_fault;
     platform := numbering |}.

(** ** Blank texts, and other faults *)






End PublisherTerms.
(* ===================================================================== *)
(** * Facts about dicts *)
(* ===================================================================== *)

Local Open Scope list_scope.

Lemma dict_get_set_same (d : dict) (k : string) (v : json) :
  dict_get (dict_set d k v) k = Some v.
Proof.
  induction d as [|[k' v'] rest IH]; simpl.
  - now rewrite String.eqb_refl.
  - destruct (String.eqb k' k) eqn:Hk; simpl; rewrite Hk; auto.
Qed.

Lemma dict_get_set_other (d : dict) (k k' : string) (v : json) :
  k <> k' -> dict_get (dict_set d k v) k' = dict_get d k'.
Proof.
  intros Hne. induction d as [|[k0 v0] rest IH]; simpl.
  - destruct (String.eqb k k') eqn:Hk; auto.
    apply String.eqb_eq in Hk. contradiction.
  - destruct (String.eqb k0 k) eqn:Hk; simpl.
    + apply String.eqb_eq in Hk. subst k0.
      destruct (String.eqb k k') eqn:Hk'; auto.
      apply String.eqb_eq in Hk'. contradiction.
    + now rewrite IH.
Qed.


(* ===================================================================== *)
(** * The Insight Logger: what the fetch extracts *)
(* ===================================================================== *)

Module LoggerSpec.

Import Logger LoggerTerms.

Lemma extracts_reports (m : string) (x : json) :
  extracts m x = true -> reports m x = true.
Proof.
  destruct x; simpl; try discriminate.
  destruct (is_str (get_or fields "name" JNull) m); simpl; try discriminate.
  destruct (dict_has fields "values"), (dict_has fields "total_value"); simpl;
    auto; rewrite ?andb_false_r; simpl; rewrite ?andb_false_r; auto.
Qed.

(** A turn for an entry that does not extract [m] leaves [m] alone. *)
Lemma parse_metric_keeps (m : string) (d d' : dict) (x : json) :
  parse_metric d x = Some d' -> extracts m x = false ->
  dict_get d' m = dict_get d m.
Proof.
  destruct x as [| | | |items|md]; simpl; try discriminate.
  destruct (get_or md "name" JNull) as [| | |name| |] eqn:Hname;
    try (intros [= <-]; reflexivity).
  simpl. intros Hstep Hno.
  destruct (String.eqb name m) eqn:Hnm.
  - apply String.eqb_eq in Hnm. subst m.
    simpl in Hno. revert Hstep Hno.
    destruct (name =? "views")%string, (name =? "likes")%string,
      (name =? "replies")%string, (dict_has md "values"),
      (dict_has md "total_value"), (truthy (get_or md "values" JNull));
      simpl; intros Hstep Hno; try discriminate; now injection Hstep as <-.
  - assert (Hne : name <> m) by (now apply String.eqb_neq).
    repeat match type of Hstep with
           | (if ?c then _ else _) = _ => destruct c
           | match ?c with Some _ => _ | None => _ end = _ =>
               destruct c; try discriminate
           end;
      injection Hstep as <-; auto using dict_get_set_other.
Qed.

Lemma parse_metrics_keeps (m : string) (items : list json) :
  forall d d', parse_metrics d items = Some d' ->
               existsb (extracts m) items = false ->
               dict_get d' m = dict_get d m.
Proof.
  induction items as [|x rest IH]; simpl; intros d d' Hrun Hno.
  - now injection Hrun as <-.
  - apply orb_false_iff in Hno. destruct Hno as [Hx Hrest].
    destruct (parse_metric d x) as [d1|] eqn:Hstep; try discriminate.
    rewrite (IH _ _ Hrun Hrest). eapply parse_metric_keeps; eauto.
Qed.

Lemma parse_metrics_app (a b : list json) :
  forall d d', parse_metrics d (a ++ b) = Some d' ->
               exists d1, parse_metrics d a = Some d1
                          /\ parse_metrics d1 b = Some d'.
Proof.
  induction a as [|x rest IH]; simpl; intros d d' Hrun.
  - eauto.
  - destruct (parse_metric d x) as [d1|]; try discriminate. eauto.
Qed.

(** The result of a fetch is the result of the loop over the entries. *)
Lemma parse_insights_entries (insights_data : json) (insights : dict) :
  parse_insights insights_data = Some insights ->
  parse_metrics [] (entries insights_data) = Some insights.
Proof.
  unfold parse_insights, entries.
  destruct (py_in_data insights_data) as [[|]|] eqn:Hin; try discriminate.
  - destruct (py_index_data insights_data) as [data|]; try discriminate.
    destruct (py_iter data) as [items|]; try discriminate. auto.
  - intros [= <-].
    destruct insights_data; simpl in *; try discriminate; auto.
    injection Hin as Hin. unfold dict_has in Hin.
    destruct (dict_get fields "data"); try discriminate. reflexivity.
Qed.

Lemma existsb_false_mono {A} (f g : A -> bool) (l : list A) :
  (forall x, g x = true -> f x = true) ->
  existsb f l = false -> existsb g l = false.
Proof.
  intros Himp. induction l as [|x rest IH]; simpl; auto.
  intros H. apply orb_false_iff in H. destruct H as [Hx Hrest].
  rewrite (IH Hrest), orb_false_r.
  destruct (g x) eqn:Hg; auto. rewrite (Himp _ Hg) in Hx. discriminate.
Qed.

(** ** Metrics the response does not report *)

(** A metric that no entry of the response reports, neither as a series
    nor as an aggregate, is not in the fetched mapping. *)
Lemma unreported_not_fetched (insights_data : json) (insights : dict)
    (m : string) :
  parse_insights insights_data = Some insights ->
  reported m insights_data = false ->
  dict_get insights m = None.
Proof.
  intros Hfetch Habsent.
  apply parse_insights_entries in Hfetch.
  rewrite (parse_metrics_keeps m _ _ _ Hfetch); auto.
  eapply existsb_false_mono; [apply extracts_reports | exact Habsent].
Qed.

(** ** C4 *)

(** The turn of the loop for an entry named [name], case by case. *)
Lemma parse_metric_sets (d d' : dict) (md : dict) (name : string) :
  parse_metric d (JObj md) = Some d' ->
  get_or md "name" JNull = JStr name ->
  (name = "views" ->
   forall samples, dict_get md "values" = Some (JArr samples) ->
     samples <> [] ->
     exists v, py_get (last samples JNull) "value" (JNum 0) = Some v
               /\ dict_get d' name = Some v)
  /\ (name = "likes" \/ name = "replies" ->
      forall total_value, dict_get md "total_value" = Some total_value ->
        exists v, py_get total_value "value" (JNum 0) = Some v
                  /\ dict_get d' name = Some v)
  /\ (name = "likes" \/ name = "replies" ->
      dict_get md "total_value" = None ->
      forall samples, dict_get md "values" = Some (JArr samples) ->
        samples <> [] ->
        exists total, py_sum_values samples 0 = Some total
                      /\ dict_get d' name = Some (JNum total)).
Proof.
  intros Hstep Hname. simpl in Hstep. rewrite Hname in Hstep.
  unfold dict_has, get_or in Hstep.
  repeat split.
  - intros -> samples Hvalues Hne. rewrite Hvalues in Hstep. simpl in Hstep.
    destruct samples as [|s0 rest]; [contradiction|].
    simpl truthy in Hstep. cbv iota in Hstep.
    destruct (py_get (last (s0 :: rest) JNull) "value" (JNum 0)) as [v|];
      try discriminate.
    injection Hstep as <-. exists v. auto using dict_get_set_same.
  - intros Hcounted total_value Htotal. rewrite Htotal in Hstep.
    assert (Hviews : (name =? "views")%string = false)
      by (destruct Hcounted as [-> | ->]; reflexivity).
    assert (Hc : ((name =? "likes") || (name =? "replies"))%string = true)
      by (destruct Hcounted as [-> | ->]; reflexivity).
    rewrite Hviews, Hc in Hstep. simpl in Hstep.
    destruct (py_get total_value "value" (JNum 0)) as [v|]; try discriminate.
    injection Hstep as <-. exists v. auto using dict_get_set_same.
  - intros Hcounted Htotal samples Hvalues Hne.
    rewrite Htotal, Hvalues in Hstep.
    assert (Hviews : (name =? "views")%string = false)
      by (destruct Hcounted as [-> | ->]; reflexivity).
    assert (Hc : ((name =? "likes") || (name =? "replies"))%string = true)
      by (destruct Hcounted as [-> | ->]; reflexivity).
    rewrite Hviews, Hc in Hstep. simpl in Hstep.
    destruct samples as [|s0 rest]; [contradiction|].
    destruct (py_sum_values (s0 :: rest) 0) as [total|]; try discriminate.
    injection Hstep as <-. exists total. auto using dict_get_set_same.
Qed.

(** C4, as the code has it.  Take a fetch that returns a mapping, and an
    entry of the response named [name] after which no entry stores a value
    under that name.  If [name] is views and the entry has a non-empty
    series, the mapping holds the value of the last sample.  If [name] is
    likes or replies and the entry has an aggregate, the mapping holds the
    aggregate's value; if it has no aggregate but a non-empty series, the
    mapping holds the sum of the samples' values.  And when no entry has a
    non-empty series for views, an aggregate for views or not, views is
    not extracted: the mapping has no views entry. *)
Theorem extraction_policy (insights_data : json) (insights : dict)
    (pre post : list json) (md : dict) (name : string) :
  parse_insights insights_data = Some insights ->
  entries insights_data = pre ++ JObj md :: post ->
  get_or md "name" JNull = JStr name ->
  existsb (extracts name) post = false ->
  (name = "views" ->
   forall samples, dict_get md "values" = Some (JArr samples) ->
     samples <> [] ->
     exists v, py_get (last samples JNull) "value" (JNum 0) = Some v
               /\ dict_get insights name = Some v)
  /\ (name = "likes" \/ name = "replies" ->
      forall total_value, dict_get md "total_value" = Some total_value ->
        exists v, py_get total_value "value" (JNum 0) = Some v
                  /\ dict_get insights name = Some v)
  /\ (name = "likes" \/ name = "replies" ->
      dict_get md "total_value" = None ->
      forall samples, dict_get md "values" = Some (JArr samples) ->
        samples <> [] ->
        exists total, py_sum_values samples 0 = Some total
                      /\ dict_get insights name = Some (JNum total))
  /\ (existsb (extracts "views") (entries insights_data) = false ->
      dict_get insights "views" = None).
Proof.
  intros Hfetch Hentries Hname Hpost.
  apply parse_insights_entries in Hfetch.
  assert (Hviews : existsb (extracts "views") (entries insights_data) = false ->
                   dict_get insights "views" = None).
  { intros Hno.
    now rewrite (parse_metrics_keeps "views" _ _ _ Hfetch Hno). }
  rewrite Hentries in Hfetch.
  apply parse_metrics_app in Hfetch. destruct Hfetch as (d1 & _ & Hrest).
  cbn [parse_metrics] in Hrest.
  destruct (parse_metric d1 (JObj md)) as [d2|] eqn:Hstep; try discriminate.
  rewrite (parse_metrics_keeps name _ _ _ Hrest Hpost).
  destruct (parse_metric_sets _ _ _ _ Hstep Hname) as (H1 & H2 & H3).
  auto.
Qed.

Lemma extraction_policy_witness :
  exists v, py_get (last [sample (JNum 5); sample (JNum 12)] JNull)
              "value" (JNum 0) = Some v
            /\ dict_get [("views", JNum 12); ("likes", JNum 3)] "views" = Some v.
Proof.
  refine (proj1 (extraction_policy example_response
                   [("views", JNum 12); ("likes", JNum 3)] []
                   [aggregate "likes" (JNum 3)]
                   [("name", JStr "views");
                    ("values", JArr [sample (JNum 5); sample (JNum 12)])]
                   "views" eq_refl eq_refl eq_refl eq_refl)
            eq_refl _ eq_refl _).
  discriminate.
Defined.

(** C4, as the specification words it, fails twice: likes reported as the
    series 1, 2 come out as 3, the sum, and not as 2, the last sample; and
    views reported as the aggregate 3 come out as 0. *)
Lemma extraction_policy_counterexample :
  ~ takes_last_sample "likes" [sample (JNum 1); sample (JNum 2)]
  /\ ~ takes_aggregate "views" (JNum 3).
Proof.
  split; intros H; vm_compute in H; discriminate.
Qed.

(** ** The whole script, branch by branch *)

Ltac branch :=
  match goal with
  | |- context [if ?c then _ else _] => destruct c eqn:?
  | |- context [match http_get ?E ?r with _ => _ end] =>
      destruct (http_get E r) eqn:?
  | |- context [match parse_insights ?b with _ => _ end] =>
      destruct (parse_insights b) as [[|? ?]|] eqn:?
  | |- context [match logs ?w with _ => _ end] => destruct (logs w) eqn:?
  end.

Ltac branches :=
  cbv [run script configuration main bind ret sys_exit uncaught gets modify
       get_post_insights requests_get datetime_now get_google_sheet_client
       open_google_sheet get_or_create_worksheet log_to_google_sheet
       sheet_call set_logs append_row data_row rows fetched insights_request
       logged_row];
  repeat (branch; cbn [fst snd logs clock_reads sheet_calls requests negb]).

(** ** C8 *)

(** C8.  Whatever the environment, a run of the Logger adds to the log
    worksheet nothing, or the header row of a worksheet it had to create,
    or one data row, or both in that order.  The data row has its cells in
    the order post identifier, account, content, views, likes, replies,
    date, time, which is the order of the header row; its date and its time
    are the two formats of the same timestamp, the one the clock gave at
    its only reading of the run. *)
Theorem log_row_columns (E : Env) (w : World) :
  let w' := snd (run (script E) w) in
  exists added,
    rows w' = rows w ++ added
    /\ (added = [] /\ (clock_reads w' <= S (clock_reads w))%nat
        \/ added = [headers] /\ (clock_reads w' <= S (clock_reads w))%nat
        \/ exists insights,
             fetched E = Some insights
             /\ clock_reads w' = S (clock_reads w)
             /\ let row := logged_row E insights (now E (clock_reads w)) in
                (added = [row] \/ added = [headers; row])
                /\ List.length row = List.length headers).
Proof.
  branches.
  all: try (exists []; rewrite app_nil_r; split; auto; left; split; auto).
  - eexists; split; [reflexivity|]. right; right.
    eexists; repeat split; auto.
  - exists [headers]; split; [reflexivity|]. right; left. auto.
  - eexists; split; [rewrite <- app_assoc; reflexivity|]. right; right.
    eexists; repeat split; auto.
Qed.

(** ** C5 *)

(** The part of C5 that holds: a fetch that fails, or that returns an
    empty mapping, ends the run with code 1 and leaves the log worksheet
    as it was. *)
Lemma failed_fetch_logs_nothing (E : Env) (w : World) :
  fetched E = None \/ fetched E = Some [] ->
  fst (run (script E) w) = 1 /\ logs (snd (run (script E) w)) = logs w.
Proof.
  branches; auto; intros [H | H]; discriminate.
Qed.

(** And exit code 0 is only reached after a fetch that returned a mapping
    with something in it. *)
Lemma exit_zero_fetched (E : Env) (w : World) :
  fst (run (script E) w) = 0 ->
  exists insights, fetched E = Some insights /\ insights <> [].
Proof.
  branches; try discriminate.
  all: intros _; eexists; split; [reflexivity|discriminate].
Qed.

(** C5, where the code parts from it.  The fetch returns views 12 and
    likes 3, the worksheet is there, and the fourth call into the
    spreadsheet library, [append_row], raises: [log_to_google_sheet]
    swallows the exception, the worksheet keeps its single header row, and
    the run still ends with code 0. *)
Theorem append_failure_exits_zero :
  let E := example_env (fun n => (n =? 3)%nat) (HttpJson example_response) in
  let w := start (Some [headers]) in
  fetched E = Some [("views", JNum 12); ("likes", JNum 3)]
  /\ sheet_fault E (sheet_calls (snd (run (script E) w)) - 1) = true
  /\ logs (snd (run (script E) w)) = Some [headers]
  /\ fst (run (script E) w) = 0.
Proof. repeat split. Qed.

End LoggerSpec.

(* ===================================================================== *)
(** * The Publisher: the shape of a run *)
(* ===================================================================== *)

Module PublisherSpec.

Import Publisher PublisherTerms.

Local Open Scope script_scope.

Lemma add_events_nil (w : World) : add_events w [] = w.
Proof. destruct w; unfold add_events; simpl. now rewrite app_nil_r. Qed.

Lemma add_events_app (w : World) (a b : list event) :
  add_events (add_events w a) b = add_events w (a ++ b).
Proof. unfold add_events; simpl. now rewrite app_assoc. Qed.

Lemma api_calls_app (a b : list event) :
  api_calls (a ++ b) = api_calls a ++ api_calls b.
Proof.
  induction a as [|ev a IH]; simpl; auto.
  destruct ev; simpl; now rewrite ?IH.
Qed.

Lemma creates_app (a b : list event) : creates (a ++ b) = creates a ++ creates b.
Proof.
  induction a as [|ev a IH]; simpl; auto.
  destruct ev; simpl; now rewrite ?IH.
Qed.

Lemma publishes_app (a b : list event) :
  publishes (a ++ b) = publishes a ++ publishes b.
Proof.
  induction a as [|ev a IH]; simpl; auto.
  destruct ev; simpl; now rewrite ?IH.
Qed.

Lemma status_writes_app (a b : list event) :
  status_writes (a ++ b) = status_writes a ++ status_writes b.
Proof.
  induction a as [|ev a IH]; simpl; auto.
  destruct ev; simpl; now rewrite ?IH.
Qed.

(** ** [update_post_status] *)

(** The function always returns [False], whatever the library does: where
    no earlier call raises, the call that would write does.  It leaves one
    status event, it made between one and three calls, and the worksheet
    is as it was. *)
Lemma update_post_status_returns (E : Env) (post_id status : string)
    (threads_post_id : json) (w : World) :
  exists calls,
    update_post_status E post_id status threads_post_id w
    = (Ret false,
       {| sheet := sheet w; sheet_calls := calls;
          trace := trace w ++ [attempt status threads_post_id (sheet w)] |})
    /\ (sheet_calls w < calls <= sheet_calls w + 3)%nat.
Proof.
  unfold update_post_status, try_update, batch_update, bind, ret, gets, log,
    modify, sheet_call, attempt; simpl.
  destruct (sheet_fault E (sheet_calls w)); simpl.
  { eexists. split; [reflexivity | lia]. }
  destruct (find (sheet w) post_id) as [row_index|]; simpl.
  2:{ eexists. split; [reflexivity | lia]. }
  destruct (sheet_fault E (S (sheet_calls w))); simpl.
  { eexists. split; [reflexivity | lia]. }
  destruct (index (row_values (sheet w) 1) "Status") as [i|]; simpl.
  2:{ eexists. split; [reflexivity | lia]. }
  rewrite orb_true_r. simpl.
  eexists. split; [reflexivity | lia].
Qed.

(** ** One turn of the loop *)

Lemma post_chain_cons (E : Env) (post_id user access : string) (i : nat)
    (block : string) (rest : list string) (last_post_id root_post_id : json)
    (w : World) :
  post_chain E post_id user access i (block :: rest) last_post_id root_post_id w
  = let rq := create_request user block access last_post_id in
    let created := platform E (api_calls (trace w)) rq in
    let w1 := add_events w [EvCreate rq created] in
    if truthy (id_of created) then
      let w2 := add_events w1 [EvSleep (publish_delay i)] in
      let rq' := publish_request user (id_of created) access in
      let published := platform E (api_calls (trace w2)) rq' in
      let w3 := add_events w2 [EvPublish rq' published] in
      if truthy (id_of published) then
        post_chain E post_id user access (S i) rest (id_of published)
          (if (i =? 0)%nat then id_of published else root_post_id) w3
      else (update_post_status E post_id "Error" JNull ;; sys_exit 1) w3
    else (update_post_status E post_id "Error" JNull ;; sys_exit 1) w1.
Proof.
  cbn [post_chain].
  cbv beta iota zeta delta
    [create_media_container publish_media_container requests_post time_sleep
     log bind ret gets modify add_events publish_delay trace sheet
     sheet_calls].
  repeat match goal with
         | |- context [if truthy (id_of ?rs) then _ else _] =>
             destruct (truthy (id_of rs))
         end; reflexivity.
Qed.

(** ** The loop *)

Lemma root_after_S (i : nat) (root : json)
    (answers : list (http_result * http_result)) :
  root_after (S i) root answers = root.
Proof. destruct answers as [|[? ?] ?]; reflexivity. Qed.

Lemma last_cons {A} (x d : A) (l : list A) : last (x :: l) d = last l x.
Proof.
  revert x d. induction l as [|y l IH]; intros x d; [reflexivity|].
  change (last (x :: y :: l) d) with (last (y :: l) d).
  now rewrite !IH.
Qed.

Lemma last_published_cons (last_post_id : json) (created published : http_result)
    (answers : list (http_result * http_result)) :
  last_published last_post_id ((created, published) :: answers)
  = last_published (id_of published) answers.
Proof. unfold last_published. simpl map. apply last_cons. Qed.

(** The loop goes through [k] turns.  Either these are all the turns and
    it returns the root identifier, or turn [k] fails and the script
    marks the row and exits. *)
Lemma post_chain_shape (E : Env) (post_id user access : string)
    (blocks : list string) :
  forall (i : nat) (last_post_id root_post_id : json) (w : World),
  exists k answers,
    List.length answers = k
    /\ forallb both_succeeded answers = true
    /\ let w1 := add_events w (chain_events user access i (firstn k blocks)
                                 last_post_id answers) in
       ((k = List.length blocks
         /\ post_chain E post_id user access i blocks last_post_id
              root_post_id w
            = (Ret (root_after i root_post_id answers), w1))
        \/ (exists block created published,
              nth_error blocks k = Some block
              /\ turn_failed created published
              /\ post_chain E post_id user access i blocks last_post_id
                   root_post_id w
                 = on_error E post_id
                     (add_events w1
                        (failed_turn user access (i + k) block
                           (last_published last_post_id answers)
                           created published)))).
Proof.
  induction blocks as [|block rest IH]; intros i last_post_id root_post_id w.
  - exists 0%nat, []. repeat split. left. split; auto.
    simpl. now rewrite add_events_nil.
  - rewrite post_chain_cons. cbv zeta.
    set (rq := create_request user block access last_post_id).
    set (created := platform E (api_calls (trace w)) rq).
    destruct (truthy (id_of created)) eqn:Hcreated.
    + set (w2 := add_events (add_events w [EvCreate rq created])
                   [EvSleep (publish_delay i)]).
      set (rq' := publish_request user (id_of created) access).
      set (published := platform E (api_calls (trace w2)) rq').
      destruct (truthy (id_of published)) eqn:Hpublished.
      * destruct (IH (S i) (id_of published)
                    (if (i =? 0)%nat then id_of published else root_post_id)
                    (add_events w2 [EvPublish rq' published]))
          as (k & answers & Hlen & Hall & Hcases).
        exists (S k), ((created, published) :: answers).
        split; [simpl; now rewrite Hlen|].
        split; [simpl; unfold both_succeeded at 1, succeeded; simpl;
                now rewrite Hcreated, Hpublished, Hall|].
        cbv zeta in *. unfold w2 in Hcases |- *.
        rewrite !add_events_app in Hcases. simpl app in Hcases.
        rewrite !add_events_app. simpl app.
        destruct Hcases as [[Hk Heq] | (b & c & p & Hnth & Hfail & Heq)].
        -- left. split; [simpl; now rewrite Hk|].
           rewrite Heq, root_after_S. reflexivity.
        -- right. exists b, c, p. split; [exact Hnth|]. split; [exact Hfail|].
           rewrite Heq, !add_events_app, last_published_cons.
           replace (i + S k)%nat with (S i + k)%nat by lia. reflexivity.
      * exists 0%nat, []. repeat split. right.
        exists block, created, (Some published).
        split; [reflexivity|]. split; [split; assumption|].
        unfold w2. rewrite !add_events_app, Nat.add_0_r. reflexivity.
    + exists 0%nat, []. repeat split. right.
      exists block, created, None.
      split; [reflexivity|]. split; [exact Hcreated|].
      rewrite !add_events_app, Nat.add_0_r. reflexivity.
Qed.

(** ** From the command line to the row *)

Ltac prefix_open :=
  cbv beta iota zeta delta
    [script configuration main bind ret sys_exit gets modify
     get_google_sheet_client open_google_sheet get_worksheet get_post_by_id
     sheet_call row_read configured sheet_readable start add_calls run
     user_id access_token sheet sheet_calls trace].

Ltac prefix_case :=
  match goal with
  | |- context [unset ?v] => destruct (unset v)
  | |- context [path_exists ?E ?p] => destruct (path_exists E p)
  | |- context [(?n <? 3)%nat] => destruct (n <? 3)%nat
  | |- context [worksheet_found ?E] => destruct (worksheet_found E)
  | |- context [sheet_fault ?E ?n] => destruct (sheet_fault E n)
  | |- context [find_record ?r ?p] => destruct (find_record r p) as [[|? ?]|]
  end;
  cbv beta iota; cbn [negb andb orb fst snd sheet sheet_calls trace].

(** Without a row the script stops with code 1, having left no trace and
    not touched the worksheet. *)
Lemma script_no_row (E : Env) (g : grid) :
  row_read E (start g) = None ->
  fst (run (script E) (start g)) = 1
  /\ trace (snd (run (script E) (start g))) = []
  /\ sheet (snd (run (script E) (start g))) = g.
Proof.
  prefix_open.
  repeat (prefix_case; try (intros _; repeat split; reflexivity);
          try discriminate).
Qed.

(** With a row it goes on to the blocks, four calls into the spreadsheet
    library later. *)
Lemma script_row (E : Env) (g : grid) (post_data : dict) :
  row_read E (start g) = Some post_data ->
  script E (start g)
  = publish E (nth 1 (argv E) "") (nth 2 (argv E) "") (user_id E)
      (access_token E) post_data (add_calls (start g) 4).
Proof.
  prefix_open.
  repeat (prefix_case; try discriminate).
  intros [= <-]. reflexivity.
Qed.

(** ** The whole run *)

Lemma root_after_truthy (answers : list (http_result * http_result)) :
  answers <> [] -> forallb both_succeeded answers = true ->
  truthy (root_after 0 JNull answers) = true.
Proof.
  destruct answers as [|[created published] rest]; [contradiction|].
  intros _ Hall. simpl in Hall. apply andb_true_iff in Hall.
  destruct Hall as [Hboth _]. apply andb_true_iff in Hboth.
  destruct Hboth as [_ Hp]. exact Hp.
Qed.

Lemma bind_ret {A B} (m : M World A) (k : A -> M World B) (w w' : World)
    (a : A) :
  m w = (Ret a, w') -> (x <- m ;; k x) w = k a w'.
Proof. unfold bind. now intros ->. Qed.

(** Every run of the script has one of the five shapes. *)
Lemma run_has_shape (E : Env) (g : grid) :
  run_shape E g (fst (run (script E) (start g)))
    (snd (run (script E) (start g))).
Proof.
  enough (H : exists code w', run (script E) (start g) = (code, w')
                              /\ run_shape E g code w')
    by (destruct H as (code & w' & -> & H); exact H).
  destruct (row_read E (start g)) as [post_data|] eqn:Hrow.
  2:{ destruct (script_no_row E g Hrow) as (Hcode & Htrace & Hsheet).
      exists (fst (run (script E) (start g))), (snd (run (script E) (start g))).
      split; [apply surjective_pairing | now apply NoRow]. }
  unfold run. rewrite (script_row E g post_data Hrow).
  set (post_id := nth 2 (argv E) "").
  set (w4 := add_calls (start g) 4).
  unfold publish.
  destruct (stripped_blocks post_data block_keys) as [post_blocks|] eqn:Hstrip.
  2:{ exists 1, w4. split; [reflexivity|].
      apply NoText with post_data; auto.
      unfold chain_of. now rewrite Hstrip. }
  cbv zeta.
  assert (Hchain : chain_of post_data = Some (non_empty post_blocks))
    by (unfold chain_of; now rewrite Hstrip).
  destruct (non_empty post_blocks) as [|block rest] eqn:Hblocks.
  - (* no block *)
    destruct (update_post_status_returns E post_id "Error" JNull
                (add_events w4 [EvPrint (no_content_report post_id)]))
      as (calls & Heq & Hcalls).
    rewrite (bind_ret _ _ w4 (add_events w4 [EvPrint (no_content_report post_id)]) tt)
      by reflexivity.
    rewrite (bind_ret _ _ _ _ _ Heq).
    do 2 eexists. split; [reflexivity|].
    apply NoBlock with post_data; auto.
  - (* a chain to post *)
    destruct (update_post_status_returns E post_id "Posting" JNull w4)
      as (calls & Heq & _).
    rewrite (bind_ret _ _ _ _ _ Heq).
    unfold w4 in *.
    cbn [add_calls start sheet trace sheet_calls app] in *.
    set (w1 := {| sheet := g; sheet_calls := calls;
                  trace := [attempt "Posting" JNull g] |}).
    destruct (post_chain_shape E post_id (user_id E) (access_token E)
                (block :: rest) 0 JNull JNull w1)
      as (k & answers & Hlen & Hall & Hcases).
    cbv zeta in Hcases.
    destruct Hcases as [[Hk Hrun] | (b & created & published & Hnth & Hfail & Hrun)].
    + (* every turn went through *)
      rewrite (bind_ret _ _ _ _ _ Hrun).
      rewrite root_after_truthy;
        [|intros ->; subst k; discriminate|exact Hall].
      destruct (update_post_status_returns E post_id "Posted"
                  (root_after 0 JNull answers)
                  (add_events w1
                     (chain_events (user_id E) (access_token E) 0
                        (firstn k (block :: rest)) JNull answers)))
        as (calls' & Heq' & _).
      rewrite (bind_ret _ _ _ _ _ Heq').
      do 2 eexists. split; [reflexivity|].
      cbn [add_events w1 fst snd sheet trace sheet_calls] in *.
      rewrite Hk, firstn_all in *.
      apply Posted with post_data (block :: rest) answers; auto.
      * discriminate.
      * cbn [trace sheet]. unfold summary. rewrite <- !app_assoc. reflexivity.
    + (* turn k failed *)
      unfold bind at 1. rewrite Hrun. unfold on_error.
      match goal with
      | |- context [bind (update_post_status E post_id "Error" JNull) _ ?w] =>
          destruct (update_post_status_returns E post_id "Error" JNull w)
            as (calls' & Heq' & _)
      end.
      rewrite (bind_ret _ _ _ _ _ Heq').
      do 2 eexists. split; [reflexivity|].
      cbn [add_events w1 fst snd sheet trace sheet_calls] in *.
      apply Failed with post_data (block :: rest) k answers b created published;
        auto.
      cbn [trace sheet]. rewrite <- !app_assoc. reflexivity.
Qed.

(** ** What the events of the turns show *)

Lemma text_of_create (user block access : string) (last_post_id : json) :
  text_of (create_request user block access last_post_id) = Some (JStr block).
Proof. reflexivity. Qed.

Lemma reply_target_create (user block access : string) (last_post_id : json) :
  reply_target (create_request user block access last_post_id)
  = if truthy last_post_id then Some last_post_id else None.
Proof.
  unfold reply_target, create_request; simpl.
  destruct (truthy last_post_id); reflexivity.
Qed.

Lemma chain_facts (user access : string) (blocks : list string) :
  forall (i : nat) (last_post_id : json)
         (answers : list (http_result * http_result)),
    List.length answers = List.length blocks ->
    forallb both_succeeded answers = true ->
    let turns := chain_events user access i blocks last_post_id answers in
    List.length (creates turns) = List.length blocks
    /\ List.length (publishes turns) = List.length blocks
    /\ api_calls turns = interleave (creates turns) (publishes turns)
    /\ status_writes turns = []
    /\ all_succeeded turns = true
    /\ forall k, (k < List.length blocks)%nat ->
         text_of (fst (nth k (creates turns) no_call))
         = Some (JStr (nth k blocks ""))
         /\ reply_target (fst (nth k (creates turns) no_call))
            = match k with
              | O => if truthy last_post_id then Some last_post_id else None
              | S j => Some (id_of (snd (nth j (publishes turns) no_call)))
              end
         /\ container_of (fst (nth k (publishes turns) no_call))
            = Some (id_of (snd (nth k (creates turns) no_call))).
Proof.
  induction blocks as [|block rest IH]; intros i last_post_id answers Hlen Hall.
  - destruct answers; [|discriminate]. simpl.
    repeat split; auto; intros; lia.
  - destruct answers as [|[created published] answers]; [discriminate|].
    injection Hlen as Hlen. simpl in Hall.
    apply andb_true_iff in Hall. destruct Hall as [Hboth Hall].
    apply andb_true_iff in Hboth. destruct Hboth as [Hc Hp].
    cbn [fst snd] in Hc, Hp.
    destruct (IH (S i) (id_of published) answers Hlen Hall)
      as (Hcs & Hps & Hapi & Hst & Hok & Hnth).
    cbv zeta.
    cbn [chain_events creates publishes api_calls status_writes List.length].
    repeat split; auto.
    + now rewrite Hapi.
    + unfold all_succeeded in *.
      cbn [api_calls forallb snd]. now rewrite Hc, Hp, Hok.
    + destruct k as [|k]; [reflexivity|].
      cbn [nth]. apply Hnth. lia.
    + destruct k as [|k]; cbn [nth fst].
      * apply reply_target_create.
      * assert (Hk : (k < List.length rest)%nat) by lia.
        destruct (Hnth k Hk) as (_ & Hreply & _). rewrite Hreply.
        destruct k as [|k]; [|reflexivity].
        unfold succeeded in Hp. now rewrite Hp.
    + destruct k as [|k]; [reflexivity|].
      cbn [nth]. apply Hnth. lia.
Qed.

Lemma chain_of_length (post_data : dict) (blocks : list string) :
  chain_of post_data = Some blocks -> (List.length blocks <= 4)%nat.
Proof.
  unfold chain_of.
  destruct (stripped_blocks post_data block_keys) as [post_blocks|] eqn:Hs;
    [|discriminate].
  intros [= <-].
  assert (Hlen : forall keys l,
             stripped_blocks post_data keys = Some l ->
             List.length l = List.length keys).
  { induction keys as [|key keys IH]; simpl; intros l Hl.
    - now injection Hl as <-.
    - destruct (py_strip (get_or post_data key (JStr ""))); [|discriminate].
      destruct (stripped_blocks post_data keys) as [l'|]; [|discriminate].
      injection Hl as <-. simpl. now rewrite (IH l'). }
  apply Hlen in Hs. unfold non_empty.
  etransitivity; [apply filter_length_le|]. now rewrite Hs.
Qed.

Lemma failed_turn_fails (user access : string) (i : nat) (block : string)
    (last_post_id : json) (created : http_result)
    (published : option http_result) :
  turn_failed created published ->
  all_succeeded (failed_turn user access i block last_post_id created published)
  = false.
Proof.
  unfold all_succeeded, failed_turn, turn_failed.
  destruct published as [published|]; cbn [api_calls forallb snd].
  - intros [-> ->]. reflexivity.
  - intros ->. reflexivity.
Qed.

Lemma all_succeeded_app (a b : list event) :
  all_succeeded (a ++ b) = all_succeeded a && all_succeeded b.
Proof. unfold all_succeeded. now rewrite api_calls_app, forallb_app. Qed.

Lemma last_two {A} (x y z d : A) (l : list A) :
  last (x :: l ++ [y; z]) d = z.
Proof.
  replace (x :: l ++ [y; z]) with ((x :: l ++ [y]) ++ [z])
    by (simpl; now rewrite <- app_assoc).
  apply last_last.
Qed.

Ltac same_row Hrow Hrow' Hchain Hchain' :=
  try (rewrite Hrow in Hrow';
       first [discriminate Hrow' | injection Hrow' as <-]);
  try (rewrite Hchain in Hchain';
       first [discriminate Hchain' | injection Hchain' as <-
             | injection Hchain' as ->]).

(** ** C1 *)

(** C1.  Take a row whose chain has N blocks, N from 1 to 4, and a run in
    which every create and every publish call succeeds.  The run ends with
    code 0; it makes N create calls and N publish calls, a create and then
    the publish of what it created, turn after turn; the create call of
    block i carries the text of block i and, as reply target, the
    identifier the publish call of block i-1 returned (none for block 0);
    and the root identifier it asks the sheet to record, and prints in its
    summary, is the identifier the publish call of block 0 returned. *)
Theorem chain_published (E : Env) (g : grid) (post_data : dict)
    (blocks : list string) :
  row_read E (start g) = Some post_data ->
  chain_of post_data = Some blocks ->
  blocks <> [] ->
  all_succeeded (trace (snd (run (script E) (start g)))) = true ->
  let tr := trace (snd (run (script E) (start g))) in
  let N := List.length blocks in
  let root := id_of (snd (nth 0 (publishes tr) no_call)) in
  (1 <= N <= 4)%nat
  /\ fst (run (script E) (start g)) = 0
  /\ List.length (creates tr) = N
  /\ List.length (publishes tr) = N
  /\ api_calls tr = interleave (creates tr) (publishes tr)
  /\ (forall i, (i < N)%nat ->
        text_of (fst (nth i (creates tr) no_call))
        = Some (JStr (nth i blocks ""))
        /\ reply_target (fst (nth i (creates tr) no_call))
           = match i with
             | O => None
             | S j => Some (id_of (snd (nth j (publishes tr) no_call)))
             end
        /\ container_of (fst (nth i (publishes tr) no_call))
           = Some (id_of (snd (nth i (creates tr) no_call))))
  /\ status_writes tr = [("Posting", JNull); ("Posted", root)]
  /\ last tr (EvSleep 0) = summary E root blocks.
Proof.
  intros Hrow Hchain Hsome Hall.
  destruct (run_has_shape E g)
    as [Hrow' _ _ _
       | pd Hrow' Hchain' _ _ _
       | pd Hrow' Hchain' _ _ _ _
       | pd bs answers Hrow' Hchain' _ Hlen Hok Htrace _ Hcode
       | pd bs k answers block created published Hrow' Hchain' Hnth Hlen Hok
           Hfail Htrace _ Hcode];
    same_row Hrow Hrow' Hchain Hchain'; try congruence.
  - (* posted *)
    destruct (chain_facts (user_id E) (access_token E) blocks 0 JNull answers
                Hlen Hok) as (Hcs & Hps & Hapi & Hst & _ & Hnth).
    cbv zeta in *. rewrite Htrace. unfold attempt.
    cbn [creates publishes api_calls status_writes].
    rewrite creates_app, publishes_app, api_calls_app, status_writes_app.
    cbn [creates publishes api_calls status_writes summary].
    rewrite !app_nil_r, Hst.
    assert (Hroot : root_after 0 JNull answers
                    = id_of (snd (nth 0 (publishes
                        (chain_events (user_id E) (access_token E) 0 blocks
                           JNull answers)) no_call))).
    { destruct blocks as [|b bs]; [contradiction|].
      destruct answers as [|[c p] answers]; [discriminate|]. reflexivity. }
    repeat split; auto.
    + destruct blocks; [contradiction | simpl; lia].
    + eapply chain_of_length; eauto.
    + apply Hnth; assumption.
    + destruct (Hnth i H) as (_ & Hreply & _). rewrite Hreply.
      destruct i; reflexivity.
    + apply Hnth; assumption.
    + simpl. now rewrite Hroot.
    + rewrite Hroot. apply last_two.
  - (* a turn failed: not every call succeeded *)
    rewrite Htrace in Hall.
    change (?x :: ?l) with ([x] ++ l) in Hall.
    rewrite !all_succeeded_app, (failed_turn_fails _ _ _ _ _ _ _ Hfail) in Hall.
    rewrite ?andb_false_r in Hall. simpl in Hall.
    rewrite ?andb_false_r in Hall. discriminate Hall.
Qed.

(** The example row, on the platform that numbers its answers: two blocks,
    the root is the answer to the second call. *)
Lemma chain_published_witness :
  let tr := trace (snd (run (script (example_env no_fault numbering))
                          (start example_sheet))) in
  List.length (creates tr) = 2%nat
  /\ status_writes tr = [("Posting", JNull); ("Posted", JStr "id1")].
Proof.
  pose proof (chain_published (example_env no_fault numbering) example_sheet
                example_row ["first"; "third"] eq_refl eq_refl
                ltac:(discriminate) eq_refl) as H.
  cbv zeta in H. destruct H as (_ & _ & Hcreates & _ & _ & _ & Hstatus & _).
  split; [exact Hcreates | exact Hstatus].
Defined.

End PublisherSpec.

(* ===================================================================== *)
(** * The Insight Logger: configuration, exit code, worksheet *)
(* ===================================================================== *)

Module LoggerFacts.

Import Logger LoggerTerms LoggerSpec.

(** ** The configuration *)

(** X1.  A run of the Logger whose configuration is incomplete (the
    credentials path unset, empty or not an existing file, the sheet URL
    unset or empty, fewer than three arguments, or no token set for the
    upper-cased account name) ends with code 1 and has done nothing: no
    request, no call into the spreadsheet library, no reading of the clock.
    A run whose configuration is complete sends exactly one request, the
    GET for the insights of the post named on the command line. *)
Theorem logger_requests_once (E : Env) (w : World) :
  (configured E = false -> run (script E) w = (1, w))
  /\ (configured E = true ->
      requests (snd (run (script E) w)) = requests w ++ [insights_request E]).
Proof.
  unfold configured.
  cbv [run script configuration main bind ret sys_exit get_post_insights
       requests_get insights_request].
  repeat match goal with
         | |- context [unset ?v] => destruct (unset v)
         | |- context [path_exists ?E ?p] => destruct (path_exists E p)
         | |- context [(?n <? 4)%nat] => destruct (n <? 4)%nat
         end;
    cbn [negb andb orb]; (split; [intros H; try discriminate H; reflexivity|]);
    intros H; try discriminate H.
  branches; reflexivity.
Qed.

Lemma logger_requests_once_witness :
  run (script (tokenless_env HttpFail)) (start None) = (1, start None)
  /\ requests (snd (run (script (example_env (fun _ => false) HttpFail))
                      (start None)))
     = [insights_request (example_env (fun _ => false) HttpFail)].
Proof.
  split.
  - apply (proj1 (logger_requests_once (tokenless_env HttpFail) (start None))).
    reflexivity.
  - apply (proj2 (logger_requests_once (example_env (fun _ => false) HttpFail)
                    (start None))).
    reflexivity.
Defined.

(** ** The keys of the fetched mapping *)

Lemma keys_set_in (d : dict) (k : string) (v : json) (x : string) :
  In x (keys (dict_set d k v)) -> x = k \/ In x (keys d).
Proof.
  induction d as [|[k' v'] rest IH]; simpl.
  - intros [<- | []]. now left.
  - destruct (String.eqb k' k); simpl; intros [<- | Hin]; auto.
    destruct (IH Hin); auto.
Qed.

Lemma keys_set_nodup (d : dict) (k : string) (v : json) :
  NoDup (keys d) -> NoDup (keys (dict_set d k v)).
Proof.
  induction d as [|[k' v'] rest IH]; simpl; intros Hnd.
  - constructor; [intros [] | constructor].
  - destruct (String.eqb k' k) eqn:Hk; simpl; auto.
    inversion Hnd as [|? ? Hout Hrest]; subst.
    constructor; auto.
    intros Hin. apply keys_set_in in Hin. destruct Hin as [-> | Hin]; auto.
    rewrite String.eqb_refl in Hk. discriminate.
Qed.

Lemma keys_set_metric (d : dict) (name : string) (v : json) :
  In name metric_names ->
  incl (keys d) metric_names /\ NoDup (keys d) ->
  incl (keys (dict_set d name v)) metric_names
  /\ NoDup (keys (dict_set d name v)).
Proof.
  intros Hname [Hincl Hnd]. split; auto using keys_set_nodup.
  intros x Hx. apply keys_set_in in Hx. destruct Hx as [-> | Hx]; auto.
Qed.

(** A turn of the loop stores under one of the three names, if it stores
    at all. *)
Lemma parse_metric_keys (d d' : dict) (x : json) :
  parse_metric d x = Some d' ->
  incl (keys d) metric_names /\ NoDup (keys d) ->
  incl (keys d') metric_names /\ NoDup (keys d').
Proof.
  destruct x as [| | | |items|md]; simpl; try discriminate.
  destruct (get_or md "name" JNull) as [| | |name| |];
    try (intros [= <-]; auto).
  intros Hstep Hd.
  destruct (String.eqb_spec name "views") as [Hv|_];
    [|destruct (String.eqb_spec name "likes") as [Hl|_];
      [|destruct (String.eqb_spec name "replies") as [Hr|_]]];
    try subst name;
    cbn [String.eqb Ascii.eqb Bool.eqb andb orb] in Hstep;
    repeat match type of Hstep with
           | (if ?c then _ else _) = _ => destruct c
           | match ?c with Some _ => _ | None => _ end = _ =>
               destruct c; try discriminate
           end;
    injection Hstep as <-; auto;
    apply keys_set_metric; auto; simpl; auto.
Qed.

Lemma parse_metrics_keys (items : list json) :
  forall d d', parse_metrics d items = Some d' ->
    incl (keys d) metric_names /\ NoDup (keys d) ->
    incl (keys d') metric_names /\ NoDup (keys d').
Proof.
  induction items as [|x rest IH]; simpl; intros d d' Hrun Hd.
  - now injection Hrun as <-.
  - destruct (parse_metric d x) as [d1|] eqn:Hstep; try discriminate.
    eauto using parse_metric_keys.
Qed.

(** X2.  Whatever the platform answers, a mapping returned by the fetch
    has no keys but views, likes and replies, each at most once, so at
    most three entries: an entry of the response under any other name, or
    without a name, stores nothing. *)
Theorem fetched_keys (insights_data : json) (insights : dict) :
  parse_insights insights_data = Some insights ->
  incl (keys insights) metric_names
  /\ NoDup (keys insights)
  /\ (List.length insights <= 3)%nat.
Proof.
  intros Hfetch. apply parse_insights_entries in Hfetch.
  destruct (parse_metrics_keys _ _ _ Hfetch) as [Hincl Hnd].
  { split; [intros x [] | constructor]. }
  repeat split; auto.
  replace (List.length insights) with (List.length (keys insights))
    by (unfold keys; apply length_map).
  apply (NoDup_incl_length Hnd Hincl).
Qed.

Lemma fetched_keys_witness :
  incl (keys [("views", JNum 12); ("likes", JNum 3)]) metric_names
  /\ NoDup (keys [("views", JNum 12); ("likes", JNum 3)])
  /\ (List.length [("views", JNum 12); ("likes", JNum 3)] <= 3)%nat.
Proof. apply (fetched_keys example_response). reflexivity. Defined.

(** ** The exit code *)

(** X3.  The exit code of the Logger is 0 exactly when the configuration
    is complete, the fetch returned a mapping with something in it, and
    the calls that lead to the worksheet object went through; it is 1 in
    every other case.  Whether the row was appended plays no part: when
    the code is 0 the worksheet holds its rows of before (the header row,
    if the run created it) and then the data row, unless the last call,
    the append, raised. *)
Theorem logger_exit_code (E : Env) (w : World) :
  let code := fst (run (script E) w) in
  let w' := snd (run (script E) w) in
  code = (if configured E && usable (fetched E) && worksheet_obtained E w
          then 0 else 1)
  /\ (code = 0 ->
      exists insights,
        fetched E = Some insights
        /\ logs w'
           = Some (match logs w with Some g => g | None => [headers] end
                   ++ (if sheet_fault E (append_call w) then []
                       else [logged_row E insights (now E (clock_reads w))]))).
Proof.
  unfold configured, worksheet_obtained, usable, append_call.
  cbv [run script configuration main bind ret sys_exit get_post_insights
       requests_get].
  fold (insights_request E).
  repeat match goal with
         | |- context [unset ?v] => destruct (unset v)
         | |- context [path_exists ?E ?p] => destruct (path_exists E p)
         | |- context [(?n <? 4)%nat] => destruct (n <? 4)%nat
         end;
    cbn [negb andb orb fst snd]; try (split; [reflexivity | discriminate]).
  unfold fetched.
  destruct (http_get E (insights_request E)) as [|insights_data];
    [split; [reflexivity | discriminate]|].
  destruct (parse_insights insights_data) as [[|entry insights]|];
    try (split; [reflexivity | discriminate]).
  cbv [datetime_now get_google_sheet_client open_google_sheet
       get_or_create_worksheet log_to_google_sheet sheet_call set_logs
       append_row bind ret gets modify sys_exit uncaught data_row logged_row].
  cbn [logs sheet_calls clock_reads requests fst snd].
  destruct (logs w) as [g|]; cbn [Nat.add];
    repeat (match goal with
            | |- context [if sheet_fault E ?n then _ else _] =>
                destruct (sheet_fault E n) eqn:?
            | |- context [negb (sheet_fault E ?n)] =>
                destruct (sheet_fault E n) eqn:?
            end;
            cbn [negb andb fst snd logs sheet_calls clock_reads requests] in *;
            try (split; [reflexivity | discriminate])).
  all: try congruence.
  all: split; [reflexivity|]; intros _; eexists; split; [reflexivity|].
  all: rewrite ?app_nil_r, <- ?app_assoc; reflexivity.
Qed.

Lemma logger_exit_code_witness :
  let E := example_env (fun _ => false) (HttpJson example_response) in
  let w := start (Some [headers]) in
  exists insights,
    fetched E = Some insights
    /\ logs (snd (run (script E) w))
       = Some ([headers] ++ [logged_row E insights example_time]).
Proof.
  apply (proj2 (logger_exit_code
                  (example_env (fun _ => false) (HttpJson example_response))
                  (start (Some [headers])))).
  reflexivity.
Defined.

(** ** What a failed run leaves behind *)

(** X4.  A run of the Logger that ends with code 1 leaves the log
    worksheet as it found it, with one exception: when the spreadsheet had
    no log worksheet, the run created one, and the call that writes the
    header row raised.  That exception is raised in the handler of
    [WorksheetNotFound], where nothing catches it; the run ends there and
    the new worksheet stays behind empty, without its header row. *)
Theorem failed_run_leaves_worksheet (E : Env) (w : World) :
  fst (run (script E) w) = 1 ->
  logs (snd (run (script E) w)) = logs w
  \/ (logs w = None
      /\ logs (snd (run (script E) w)) = Some []
      /\ sheet_fault E (4 + sheet_calls w) = true).
Proof.
  cbv [run script configuration main bind ret sys_exit get_post_insights
       requests_get].
  repeat match goal with
         | |- context [if ?c then _ else _] => destruct c
         end; cbn [fst snd logs]; auto.
  destruct (http_get E _) as [|insights_data]; cbn [fst snd logs]; auto.
  destruct (parse_insights insights_data) as [[|entry insights]|];
    cbn [fst snd logs]; auto.
  cbv [datetime_now get_google_sheet_client open_google_sheet
       get_or_create_worksheet log_to_google_sheet sheet_call set_logs
       append_row bind ret gets modify sys_exit uncaught].
  cbn [logs sheet_calls clock_reads requests fst snd].
  destruct (logs w) as [g|]; cbn [Nat.add];
    repeat (match goal with
            | |- context [if sheet_fault E ?n then _ else _] =>
                destruct (sheet_fault E n) eqn:?
            | |- context [negb (sheet_fault E ?n)] =>
                destruct (sheet_fault E n) eqn:?
            end;
            cbn [negb andb fst snd logs sheet_calls clock_reads requests] in *;
            auto; try discriminate).
Qed.

Lemma failed_run_leaves_worksheet_witness :
  let E := example_env (fun n => (n =? 4)%nat) (HttpJson example_response) in
  logs (snd (run (script E) (start None))) = logs (start None)
  \/ (logs (start None) = None
      /\ logs (snd (run (script E) (start None))) = Some []
      /\ sheet_fault E (4 + sheet_calls (start None)) = true).
Proof.
  apply (failed_run_leaves_worksheet
           (example_env (fun n => (n =? 4)%nat) (HttpJson example_response))
           (start None)).
  reflexivity.
Defined.

(** ** An entry that is not an object *)

Lemma parse_metrics_not_object (x : json) (items : list json) :
  In x items -> (forall md, x <> JObj md) ->
  forall d, parse_metrics d items = None.
Proof.
  intros Hin Hx. induction items as [|y rest IH]; [contradiction|].
  intros d. simpl. destruct Hin as [-> | Hin].
  - destruct x; try reflexivity. now destruct (Hx fields).
  - destruct (parse_metric d y); auto.
Qed.

(** X5.  The loop over the entries of the response runs inside the [try]
    of [get_post_insights]: when one entry of the list under "data" is not
    an object, the fetch returns nothing at all, whatever the other entries
    report, and the run ends with code 1 without a call into the
    spreadsheet library and with the log worksheet as it was. *)
Theorem malformed_entry_voids_fetch (E : Env) (w : World)
    (insights_data x : json) :
  http_get E (insights_request E) = HttpJson insights_data ->
  In x (entries insights_data) ->
  (forall md, x <> JObj md) ->
  parse_insights insights_data = None
  /\ fst (run (script E) w) = 1
  /\ logs (snd (run (script E) w)) = logs w
  /\ sheet_calls (snd (run (script E) w)) = sheet_calls w.
Proof.
  intros Hget Hin Hx.
  assert (Hnone : parse_insights insights_data = None).
  { unfold parse_insights, entries in *.
    destruct (py_index_data insights_data) as [data|] eqn:Hdata;
      [|contradiction].
    destruct (py_iter data) as [items|] eqn:Hitems; [|contradiction].
    destruct insights_data; try discriminate.
    simpl in Hdata |- *. unfold dict_has. rewrite Hdata.
    now apply parse_metrics_not_object with x. }
  split; [exact Hnone|].
  assert (Hfetched : fetched E = None)
    by (unfold fetched; now rewrite Hget).
  revert Hfetched. clear. branches; auto; discriminate.
Qed.

Lemma malformed_entry_voids_fetch_witness :
  let body := response [series "views" [sample (JNum 5)]; JNum 3] in
  let E := example_env (fun _ => false) (HttpJson body) in
  parse_insights body = None
  /\ fst (run (script E) (start (Some [headers]))) = 1
  /\ logs (snd (run (script E) (start (Some [headers])))) = Some [headers]
  /\ sheet_calls (snd (run (script E) (start (Some [headers])))) = 0%nat.
Proof.
  apply (malformed_entry_voids_fetch
           (example_env (fun _ => false)
              (HttpJson (response [series "views" [sample (JNum 5)]; JNum 3])))
           (start (Some [headers]))
           (response [series "views" [sample (JNum 5)]; JNum 3]) (JNum 3)).
  - reflexivity.
  - simpl. auto.
  - discriminate.
Defined.

End LoggerFacts.


(* ===================================================================== *)
(** * The Insight Logger: the metrics of a logged row *)
(* ===================================================================== *)

Module LoggerRows.

Import Logger LoggerTerms LoggerSpec LoggerFacts.

(** What a run adds to the log worksheet. *)
Lemma run_adds_rows (E : Env) (w : World) :
  exists added,
    rows (snd (run (script E) w)) = rows w ++ added
    /\ (added = [] \/ added = [headers]
        \/ exists insights,
             fetched E = Some insights
             /\ let row := logged_row E insights (now E (clock_reads w)) in
                added = [row] \/ added = [headers; row]).
Proof.
  branches.
  all: try solve [exists []; rewrite app_nil_r; split; auto].
  - eexists; split; [reflexivity|]. right; right.
    eexists; split; [reflexivity|]. left. reflexivity.
  - exists [headers]; split; [reflexivity|]. auto.
  - eexists; split; [rewrite <- app_assoc; reflexivity|]. right; right.
    eexists; split; [reflexivity|]. right. reflexivity.
Qed.

(** The data row of a run, if the run added one. *)
Lemma data_row_logged (E : Env) (w : World) (added : list (list json))
    (row : list json) :
  rows (snd (run (script E) w)) = rows w ++ added ->
  In row added -> row <> headers ->
  exists insights,
    fetched E = Some insights
    /\ row = logged_row E insights (now E (clock_reads w)).
Proof.
  intros Hrows Hin Hrow.
  destruct (run_adds_rows E w) as (added' & Hrows' & Hcases).
  rewrite Hrows in Hrows'. apply app_inv_head in Hrows'. subst added'.
  destruct Hcases as [-> | [-> | (insights & Hfetch & [-> | ->])]].
  - contradiction.
  - destruct Hin as [<- | []]. contradiction.
  - destruct Hin as [<- | []]. eauto.
  - destruct Hin as [<- | [<- | []]]; [contradiction | eauto].
Qed.

(** A mapping the fetch returns for a response that reports none of the
    three metrics is empty. *)
Lemma nothing_reported (insights_data : json) (insights : dict) :
  parse_insights insights_data = Some insights ->
  (forall m, In m metric_names -> reported m insights_data = false) ->
  insights = [].
Proof.
  intros Hfetch Hnone.
  destruct insights as [|[k v] rest]; [reflexivity|].
  pose proof Hfetch as Hentries. apply parse_insights_entries in Hentries.
  destruct (parse_metrics_keys _ _ _ Hentries) as [Hincl _].
  { split; [intros x [] | constructor]. }
  assert (Hk : In k metric_names) by (apply Hincl; simpl; auto).
  pose proof (unreported_not_fetched _ _ k Hfetch (Hnone k Hk)) as Hget.
  simpl in Hget. rewrite String.eqb_refl in Hget. discriminate.
Qed.

(** C3, as the code has it.  For the response with the views series
    [{value:5},{value:12}], the likes aggregate {value:3} and no replies
    entry, the fetch returns the mapping of views to 12 and likes to 3,
    with no entry for replies; the run that logs it appends the row whose
    metric cells are 12, 3 and 0.  In general a metric that no entry of
    the response reports, neither as a series nor as an aggregate, is not
    in the fetched mapping.  The zero comes in where the row is built:
    in every data row a run appends, the cell of each of the three metrics
    holds what the fetched mapping has under that metric, and 0 when it
    has nothing.  And when the response reports none of the three, the
    fetch counts as failed: the run ends with code 1 and appends no
    row. *)
Theorem absent_metric_logged_as_zero :
  parse_insights example_response = Some [("views", JNum 12); ("likes", JNum 3)]
  /\ logs (snd (run (script (example_env (fun _ => false)
                               (HttpJson example_response)))
                  (start (Some [headers]))))
     = Some [headers;
             [JStr "17890"; JStr "acct"; JStr "hello";
              JNum 12; JNum 3; JNum 0;
              JStr "2025-03-09"; JStr "07:05:00"]]
  /\ (forall insights_data insights m,
        parse_insights insights_data = Some insights ->
        reported m insights_data = false ->
        dict_get insights m = None)
  /\ (forall E w insights_data insights m col added row,
        http_get E (insights_request E) = HttpJson insights_data ->
        parse_insights insights_data = Some insights ->
        In (m, col) metric_columns ->
        rows (snd (run (script E) w)) = rows w ++ added ->
        In row added -> row <> headers ->
        (dict_get insights m = None -> nth col row JNull = JNum 0)
        /\ (forall v, dict_get insights m = Some v -> nth col row JNull = v))
  /\ (forall E w insights_data,
        http_get E (insights_request E) = HttpJson insights_data ->
        (forall m, In m metric_names -> reported m insights_data = false) ->
        fst (run (script E) w) = 1
        /\ logs (snd (run (script E) w)) = logs w).
Proof.
  split; [reflexivity|]. split; [reflexivity|].
  split; [exact unreported_not_fetched|]. split.
  - intros E w insights_data insights m col added row Hget Hfetch Hcol Hrows
      Hin Hrow.
    destruct (data_row_logged E w added row Hrows Hin Hrow)
      as (insights' & Hfetched & ->).
    unfold fetched in Hfetched. rewrite Hget, Hfetch in Hfetched.
    injection Hfetched as <-.
    destruct Hcol as [[= <- <-] | [[= <- <-] | [[= <- <-] | []]]];
      cbn [logged_row nth]; unfold get_or;
      (split; [intros -> | intros v ->]; reflexivity).
  - intros E w insights_data Hget Hnone.
    apply failed_fetch_logs_nothing. unfold fetched. rewrite Hget.
    destruct (parse_insights insights_data) as [insights|] eqn:Hfetch; auto.
    right. f_equal. eapply nothing_reported; eauto.
Qed.

(** The example: replies is not reported, and the row logged shows 0
    for it. *)
Lemma absent_metric_logged_as_zero_witness :
  let E := example_env (fun _ => false) (HttpJson example_response) in
  let row := [JStr "17890"; JStr "acct"; JStr "hello"; JNum 12; JNum 3; JNum 0;
              JStr "2025-03-09"; JStr "07:05:00"] in
  (dict_get [("views", JNum 12); ("likes", JNum 3)] "replies" = None ->
   nth 5 row JNull = JNum 0)
  /\ (forall v, dict_get [("views", JNum 12); ("likes", JNum 3)] "replies"
                = Some v -> nth 5 row JNull = v).
Proof.
  apply (proj1 (proj2 (proj2 (proj2 absent_metric_logged_as_zero)))
           (example_env (fun _ => false) (HttpJson example_response))
           (start (Some [headers])) example_response
           [("views", JNum 12); ("likes", JNum 3)] "replies" 5%nat
           [[JStr "17890"; JStr "acct"; JStr "hello"; JNum 12; JNum 3; JNum 0;
             JStr "2025-03-09"; JStr "07:05:00"]]).
  - reflexivity.
  - reflexivity.
  - simpl. auto.
  - reflexivity.
  - simpl. auto.
  - discriminate.
Defined.

(** C3, as the specification words it, fails on its own example: the
    fetch result has no replies entry, so it does not hold 0 under
    replies. *)
Lemma fetch_result_counterexample :
  ~ fetch_holds example_response "replies" (JNum 0).
Proof.
  intros (insights & Hfetch & Hget).
  vm_compute in Hfetch. injection Hfetch as <-. discriminate Hget.
Qed.

End LoggerRows.

(* ===================================================================== *)
(** * The Publisher: the way to the row, the calls, the sheet *)
(* ===================================================================== *)

Module PublisherFacts.

Import Publisher PublisherTerms PublisherSpec.

Local Open Scope script_scope.

(** ** Before the row *)

(** X6.  A run of the Publisher whose configuration is incomplete (the
    credentials path unset, empty or not an existing file, the sheet URL
    unset or empty, fewer than two arguments, or no token or no user
    identifier set for the upper-cased account name) ends with code 1
    and has done nothing: no call into the spreadsheet library, no call to
    the platform, nothing written. *)
Theorem unconfigured_run_is_inert (E : Env) (w : World) :
  configured E = false -> run (script E) w = (1, w).
Proof.
  unfold configured.
  cbv beta iota zeta delta [run script configuration main bind ret sys_exit].
  repeat match goal with
         | |- context [unset ?v] => destruct (unset v)
         | |- context [path_exists ?E ?p] => destruct (path_exists E p)
         | |- context [(?n <? 3)%nat] => destruct (n <? 3)%nat
         end;
    cbn [negb andb orb]; intros H; try discriminate H; reflexivity.
Qed.

Lemma unconfigured_run_is_inert_witness :
  run (script userless_env) (start example_sheet) = (1, start example_sheet).
Proof.
  apply (unconfigured_run_is_inert userless_env (start example_sheet)).
  reflexivity.
Defined.

Lemma is_str_eq (v : json) (s : string) : is_str v s = true <-> v = JStr s.
Proof.
  destruct v; simpl; split; try discriminate.
  - intros H. apply String.eqb_eq in H. now subst.
  - intros [= ->]. apply String.eqb_refl.
Qed.

Lemma find_record_none (records : list dict) (post_id : string) :
  find_record records post_id = None ->
  forall row, In row records -> get_or row "Post_ID" JNull <> JStr post_id.
Proof.
  induction records as [|r rest IH]; simpl; intros Hnone row Hin; [contradiction|].
  destruct (is_str (get_or r "Post_ID" JNull) post_id) eqn:Hr; [discriminate|].
  destruct Hin as [<- | Hin]; auto.
  intros Heq. apply is_str_eq in Heq. congruence.
Qed.

Lemma find_record_some (records : list dict) (post_id : string) (row : dict) :
  find_record records post_id = Some row ->
  exists before after,
    records = before ++ row :: after
    /\ get_or row "Post_ID" JNull = JStr post_id
    /\ forall r, In r before -> get_or r "Post_ID" JNull <> JStr post_id.
Proof.
  induction records as [|r rest IH]; simpl; [discriminate|].
  destruct (is_str (get_or r "Post_ID" JNull) post_id) eqn:Hr.
  - intros [= ->]. exists [], rest. apply is_str_eq in Hr.
    repeat split; auto; intros ? [].
  - intros Hfound. destruct (IH Hfound) as (before & after & -> & Hid & Hnot).
    exists (r :: before), after. repeat split; auto.
    intros r' [<- | Hin]; auto.
    intros Heq. apply is_str_eq in Heq. congruence.
Qed.

(** X7.  [get_post_by_id] never raises and makes one call into the
    spreadsheet library.  When that call raises it returns no row.
    Otherwise it returns the first of the records whose Post_ID is the
    string it was asked for, and no row when there is none: a record whose
    Post_ID came out of the sheet as a number is passed over, and of two
    records with the same Post_ID the second is never returned. *)
Theorem get_post_by_id_first_match (E : Env) (post_id : string) (w : World) :
  exists result,
    get_post_by_id E post_id w = (Ret result, add_calls w 1)
    /\ match result with
       | Some row =>
           sheet_fault E (sheet_calls w) = false
           /\ exists before after,
                records_of E (sheet w) = before ++ row :: after
                /\ get_or row "Post_ID" JNull = JStr post_id
                /\ forall r, In r before ->
                     get_or r "Post_ID" JNull <> JStr post_id
       | None =>
           sheet_fault E (sheet_calls w) = true
           \/ forall r, In r (records_of E (sheet w)) ->
                get_or r "Post_ID" JNull <> JStr post_id
       end.
Proof.
  unfold get_post_by_id, sheet_call, bind, ret, gets, add_calls.
  replace (sheet_calls w + 1)%nat with (S (sheet_calls w)) by lia.
  destruct (sheet_fault E (sheet_calls w)) eqn:Hfault; cbn [sheet].
  - exists None. split; auto.
  - destruct (find_record (records_of E (sheet w)) post_id) as [row|] eqn:Hfind.
    + exists (Some row). split; [reflexivity|].
      split; auto using find_record_some.
    + exists None. split; [reflexivity|]. right.
      now apply find_record_none.
Qed.

(** X8.  With a complete configuration, when one of the four calls that
    lead to the records raises, or the spreadsheet has no worksheet of
    posts, or no record has the Post_ID asked for, the run ends with code
    1 after at most four calls into the spreadsheet library: it has called
    the platform not once and has written nothing to the sheet, no status
    either. *)
Theorem unread_row_stops_run (E : Env) (g : grid) :
  configured E = true ->
  records_read E = false
  \/ find_record (records_of E g) (nth 2 (argv E) "") = None ->
  fst (run (script E) (start g)) = 1
  /\ trace (snd (run (script E) (start g))) = []
  /\ sheet (snd (run (script E) (start g))) = g
  /\ (sheet_calls (snd (run (script E) (start g))) <= 4)%nat.
Proof.
  unfold records_read. prefix_open.
  repeat (prefix_case;
          try (intros _ _; repeat split; try reflexivity; cbn; lia);
          try (intros H; discriminate H)).
  all: intros _ [H | H]; discriminate H.
Qed.

Lemma unread_row_stops_run_witness :
  let E := example_env (fun n => (n =? 3)%nat) numbering in
  fst (run (script E) (start example_sheet)) = 1
  /\ trace (snd (run (script E) (start example_sheet))) = []
  /\ sheet (snd (run (script E) (start example_sheet))) = example_sheet
  /\ (sheet_calls (snd (run (script E) (start example_sheet))) <= 4)%nat.
Proof.
  apply (unread_row_stops_run (example_env (fun n => (n =? 3)%nat) numbering)
           example_sheet).
  - reflexivity.
  - left. reflexivity.
Defined.

(** ** A block cell that is not text *)

Lemma stripped_blocks_not_text (post_data : dict) (key : string) (v : json)
    (keys : list string) :
  In key keys -> dict_get post_data key = Some v -> not_text v = true ->
  stripped_blocks post_data keys = None.
Proof.
  intros Hin Hget Hv. induction keys as [|k rest IH]; simpl; [contradiction|].
  destruct Hin as [-> | Hin].
  - unfold get_or. rewrite Hget. destruct v; try discriminate; reflexivity.
  - rewrite (IH Hin). now destruct (py_strip (get_or post_data k (JStr ""))).
Qed.

(** X9.  When one of the four block cells of the row read holds something
    that is not a string (a number, as the spreadsheet library makes of a
    numeric cell, a boolean, nothing), stripping it raises and nothing
    catches that: the run ends with code 1 before any call to the
    platform, and it writes no status to the sheet, not even the error
    status. *)
Theorem number_block_stops_run (E : Env) (g : grid) (post_data : dict)
    (key : string) (v : json) :
  row_read E (start g) = Some post_data ->
  In key block_keys ->
  dict_get post_data key = Some v ->
  not_text v = true ->
  fst (run (script E) (start g)) = 1
  /\ trace (snd (run (script E) (start g))) = []
  /\ sheet (snd (run (script E) (start g))) = g.
Proof.
  intros Hrow Hin Hget Hv.
  assert (Hchain : chain_of post_data = None).
  { unfold chain_of.
    now rewrite (stripped_blocks_not_text post_data key v block_keys). }
  destruct (run_has_shape E g)
    as [Hrow' _ _ _
       | pd Hrow' Hchain' Htrace Hsheet Hcode
       | pd Hrow' Hchain' _ _ _ _
       | pd bs answers Hrow' Hchain' _ _ _ _ _ _
       | pd bs k answers block created published Hrow' Hchain' _ _ _ _ _ _ _];
    same_row Hrow Hrow' Hchain Hchain'; try congruence.
  auto.
Qed.

Lemma number_block_stops_run_witness :
  let E := example_env no_fault numbering in
  fst (run (script E) (start number_sheet)) = 1
  /\ trace (snd (run (script E) (start number_sheet))) = []
  /\ sheet (snd (run (script E) (start number_sheet))) = number_sheet.
Proof.
  apply (number_block_stops_run (example_env no_fault numbering) number_sheet
           number_row "Block_2_Content" (JNum 7)).
  - reflexivity.
  - simpl. auto.
  - reflexivity.
  - reflexivity.
Defined.

(** ** The summary and the exit code *)

Lemma summaries_app (a b : list event) :
  summaries (a ++ b) = summaries a ++ summaries b.
Proof.
  induction a as [|ev a IH]; simpl; auto.
  destruct ev; simpl; now rewrite ?IH.
Qed.

Lemma summaries_chain (user access : string) (blocks : list string) :
  forall (i : nat) (last_post_id : json)
         (answers : list (http_result * http_result)),
    summaries (chain_events user access i blocks last_post_id answers) = [].
Proof.
  induction blocks as [|block rest IH]; intros i last_post_id answers;
    [reflexivity|].
  destruct answers as [|[created published] answers]; [reflexivity|].
  simpl. apply IH.
Qed.

Lemma summaries_failed_turn (user access : string) (i : nat) (block : string)
    (last_post_id : json) (created : http_result)
    (published : option http_result) :
  summaries (failed_turn user access i block last_post_id created published)
  = [].
Proof. destruct published; reflexivity. Qed.

(** X10.  A run of the Publisher ends with code 0 or with code 1.  It
    ends with code 0 exactly when it printed the JSON summary, which it
    then did once and as the last thing: every block of the chain was
    created and published, the identifier in the summary is the one the
    first publish call returned, the account name is the argument as
    given, not upper-cased, and the content is the blocks of the chain
    joined by blank lines.  A run that ends with code 1 printed no
    summary. *)
Theorem summary_iff_exit_zero (E : Env) (g : grid) :
  let code := fst (run (script E) (start g)) in
  let tr := trace (snd (run (script E) (start g))) in
  (code = 0
   /\ exists post_data blocks root,
        row_read E (start g) = Some post_data
        /\ chain_of post_data = Some blocks
        /\ blocks <> []
        /\ all_succeeded tr = true
        /\ List.length (publishes tr) = List.length blocks
        /\ root = id_of (snd (nth 0 (publishes tr) no_call))
        /\ truthy root = true
        /\ map EvSummary (summaries tr) = [summary E root blocks]
        /\ last tr (EvSleep 0) = summary E root blocks)
  \/ (code = 1 /\ summaries tr = []).
Proof.
  cbv zeta.
  destruct (run_has_shape E g)
    as [Hrow Htrace _ Hcode
       | pd Hrow Hchain Htrace _ Hcode
       | pd Hrow Hchain Htrace _ Hcode _
       | pd bs answers Hrow Hchain Hsome Hlen Hok Htrace _ Hcode
       | pd bs k answers block created published Hrow Hchain Hnth Hlen Hok
           Hfail Htrace _ Hcode].
  - right. now rewrite Htrace.
  - right. now rewrite Htrace.
  - right. now rewrite Htrace.
  - left. split; [exact Hcode|].
    destruct (chain_facts (user_id E) (access_token E) bs 0 JNull answers
                Hlen Hok) as (Hcs & Hps & Hapi & Hst & Hall & _).
    cbv zeta in *.
    assert (Hroot : root_after 0 JNull answers
                    = id_of (snd (nth 0 (publishes
                        (chain_events (user_id E) (access_token E) 0 bs
                           JNull answers)) no_call))).
    { destruct bs as [|b bs]; [contradiction|].
      destruct answers as [|[c p] answers]; [discriminate|]. reflexivity. }
    exists pd, bs, (root_after 0 JNull answers).
    rewrite Htrace. unfold attempt.
    change (?x :: ?l ++ ?r) with ([x] ++ l ++ r).
    rewrite !all_succeeded_app, !publishes_app, !summaries_app, summaries_chain.
    rewrite Hall. cbn [publishes summaries app all_succeeded api_calls forallb
                       andb summary map].
    rewrite app_nil_r.
    repeat split; auto.
    + apply root_after_truthy; [|exact Hok].
      intros ->. destruct bs; [contradiction | discriminate].
    + apply (last_two _ _ _ _
               (chain_events (user_id E) (access_token E) 0 bs JNull answers)).
  - right. split; [exact Hcode|].
    rewrite Htrace. unfold attempt.
    change (?x :: ?l ++ ?r) with ([x] ++ l ++ r).
    now rewrite !summaries_app, summaries_chain, summaries_failed_turn.
Qed.

(** ** The calls to the platform *)

Lemma interleave_app {A} (a b c d : list A) :
  List.length a = List.length b ->
  interleave (a ++ c) (b ++ d) = interleave a b ++ interleave c d.
Proof.
  revert b. induction a as [|x a IH]; intros [|y b] Hlen; try discriminate.
  - reflexivity.
  - injection Hlen as Hlen. simpl. now rewrite IH.
Qed.

(** The turns that went through, call by call: each create call returned
    a container, and the publish call names it. *)
Lemma chain_calls (user access : string) (blocks : list string) :
  forall (i : nat) (last_post_id : json)
         (answers : list (http_result * http_result)),
    List.length answers = List.length blocks ->
    forallb both_succeeded answers = true ->
    let turns := chain_events user access i blocks last_post_id answers in
    forall k, (k < List.length blocks)%nat ->
      succeeded (snd (nth k (creates turns) no_call)) = true
      /\ fst (nth k (publishes turns) no_call)
         = publish_request user
             (id_of (snd (nth k (creates turns) no_call))) access.
Proof.
  induction blocks as [|block rest IH]; intros i last_post_id answers Hlen Hall.
  - destruct answers; [|discriminate]. simpl. intros; lia.
  - destruct answers as [|[created published] answers]; [discriminate|].
    injection Hlen as Hlen. simpl in Hall.
    apply andb_true_iff in Hall. destruct Hall as [Hboth Hall].
    apply andb_true_iff in Hboth. destruct Hboth as [Hc Hp].
    cbn [fst snd] in Hc, Hp.
    pose proof (IH (S i) (id_of published) answers Hlen Hall) as Hnth.
    cbv zeta in *. cbn [chain_events creates publishes].
    intros [|k] Hk; cbn [nth fst snd]; auto.
    apply Hnth. simpl in Hk. lia.
Qed.

(** The create requests of the turns that went through, and the
    identifier they leave for the turn after them. *)
Lemma chain_creates (user access : string) (blocks : list string) :
  forall (i : nat) (last_post_id : json)
         (answers : list (http_result * http_result)),
    List.length answers = List.length blocks ->
    let turns := chain_events user access i blocks last_post_id answers in
    (forall k, (k < List.length blocks)%nat ->
       fst (nth k (creates turns) no_call)
       = create_request user (nth k blocks "") access
           match k with
           | O => last_post_id
           | S j => id_of (snd (nth j (publishes turns) no_call))
           end)
    /\ last_published last_post_id answers
       = match List.length blocks with
         | O => last_post_id
         | S j => id_of (snd (nth j (publishes turns) no_call))
         end.
Proof.
  induction blocks as [|block rest IH]; intros i last_post_id answers Hlen.
  - destruct answers; [|discriminate]. simpl. split; auto. intros; lia.
  - destruct answers as [|[created published] answers]; [discriminate|].
    injection Hlen as Hlen.
    destruct (IH (S i) (id_of published) answers Hlen) as (Hnth & Hlast).
    cbv zeta in *. rewrite last_published_cons, Hlast.
    cbn [chain_events creates publishes List.length].
    split.
    + intros [|k] Hk; [reflexivity|].
      cbn [nth]. rewrite Hnth by (simpl in Hk; lia).
      destruct k; reflexivity.
    + destruct (List.length rest); reflexivity.
Qed.

(** X11.  In every run the calls to the platform alternate, a create
    call and then a publish call, except that the last create call may
    have no publish call after it: at most one container is ever left
    unpublished.  Each publish call follows a create call that returned a
    container identifier, and is the request to
    <base><user id>/threads_publish with the account's token that names
    that identifier as [creation_id]. *)
Theorem publish_follows_create (E : Env) (g : grid) :
  let tr := trace (snd (run (script E) (start g))) in
  api_calls tr
  = interleave (creates tr) (publishes tr)
    ++ skipn (List.length (publishes tr)) (creates tr)
  /\ (List.length (publishes tr) <= List.length (creates tr)
      <= S (List.length (publishes tr)))%nat
  /\ forall i, (i < List.length (publishes tr))%nat ->
       succeeded (snd (nth i (creates tr) no_call)) = true
       /\ fst (nth i (publishes tr) no_call)
          = publish_request (user_id E)
              (id_of (snd (nth i (creates tr) no_call))) (access_token E).
Proof.
  cbv zeta.
  destruct (run_has_shape E g)
    as [Hrow Htrace _ Hcode
       | pd Hrow Hchain Htrace _ Hcode
       | pd Hrow Hchain Htrace _ Hcode _
       | pd bs answers Hrow Hchain Hsome Hlen Hok Htrace _ Hcode
       | pd bs k answers block created published Hrow Hchain Hnth Hlen Hok
           Hfail Htrace _ Hcode].
  - rewrite Htrace. unfold attempt. simpl. repeat split; auto; intros; lia.
  - rewrite Htrace. unfold attempt. simpl. repeat split; auto; intros; lia.
  - rewrite Htrace. unfold attempt. simpl. repeat split; auto; intros; lia.
  - destruct (chain_facts (user_id E) (access_token E) bs 0 JNull answers
                Hlen Hok) as (Hcs & Hps & Hapi & _).
    pose proof (chain_calls (user_id E) (access_token E) bs 0 JNull answers
                Hlen Hok) as Hcalls.
    cbv zeta in *. rewrite Htrace. unfold attempt.
    change (?x :: ?l ++ ?r) with ([x] ++ l ++ r).
    rewrite !api_calls_app, !creates_app, !publishes_app.
    cbn [api_calls creates publishes summary app]. rewrite !app_nil_r.
    rewrite Hps, <- Hcs, skipn_all, app_nil_r, Hcs.
    repeat split; auto; try lia; apply Hcalls; lia.
  - assert (Hk : (k < List.length bs)%nat)
      by (apply nth_error_Some; now rewrite Hnth).
    assert (Hlen' : List.length answers = List.length (firstn k bs))
      by (rewrite firstn_length_le; lia).
    destruct (chain_facts (user_id E) (access_token E) (firstn k bs) 0 JNull
                answers Hlen' Hok) as (Hcs & Hps & Hapi & _).
    pose proof (chain_calls (user_id E) (access_token E) (firstn k bs) 0 JNull
                answers Hlen' Hok) as Hcalls.
    cbv zeta in *. rewrite Htrace. unfold attempt.
    change (?x :: ?l ++ ?r) with ([x] ++ l ++ r).
    rewrite !api_calls_app, !creates_app, !publishes_app.
    set (turns := chain_events (user_id E) (access_token E) 0 (firstn k bs)
                    JNull answers) in *.
    rewrite firstn_length_le in Hcs, Hps, Hcalls by lia.
    assert (Hcp : List.length (creates turns) = List.length (publishes turns))
      by lia.
    destruct published as [published|];
      cbn [failed_turn api_calls creates publishes app];
      rewrite ?app_nil_r, ?length_app; cbn [List.length].
    + destruct Hfail as [Hc Hp].
      split; [|split; [lia|]].
      * rewrite (interleave_app _ _ _ _ Hcp), Hapi.
        rewrite skipn_all2 by (rewrite length_app; simpl; lia).
        simpl. now rewrite app_nil_r.
      * intros i Hi. destruct (Nat.eq_dec i k) as [-> | Hne].
        -- rewrite !app_nth2 by lia.
           rewrite Hcs, Hps, Nat.sub_diag. split; [exact Hc | reflexivity].
        -- rewrite !app_nth1 by lia. apply Hcalls. lia.
    + split; [|split; [lia|]].
      * rewrite <- (app_nil_r (publishes turns)) at 1.
        rewrite (interleave_app _ _ _ _ Hcp), Hapi.
        rewrite <- Hcp, skipn_app, skipn_all, Nat.sub_diag.
        simpl. now rewrite app_nil_r.
      * intros i Hi. rewrite app_nth1 by lia. apply Hcalls. lia.
Qed.

(** X12.  The create calls of a run carry the blocks of the chain of the
    row, in the order of the columns Block_1_Content to Block_4_Content,
    each block once, starting from the first and without a gap, also in a
    run that stops half way.  The first is a post of its own; every later
    one is a reply to the identifier the publish call before it returned.
    All go to <base><user id>/threads with the account's token.  A run
    makes at most four of them, whatever other columns the worksheet
    has. *)
Theorem blocks_created_in_order (E : Env) (g : grid) (post_data : dict)
    (blocks : list string) :
  row_read E (start g) = Some post_data ->
  chain_of post_data = Some blocks ->
  let tr := trace (snd (run (script E) (start g))) in
  (List.length (creates tr) <= List.length blocks <= 4)%nat
  /\ forall i, (i < List.length (creates tr))%nat ->
       fst (nth i (creates tr) no_call)
       = create_request (user_id E) (nth i blocks "") (access_token E)
           match i with
           | O => JNull
           | S j => id_of (snd (nth j (publishes tr) no_call))
           end.
Proof.
  intros Hrow Hchain. cbv zeta.
  pose proof (chain_of_length post_data blocks Hchain) as Hfour.
  destruct (run_has_shape E g)
    as [Hrow' _ _ _
       | pd Hrow' Hchain' _ _ _
       | pd Hrow' Hchain' Htrace _ _ _
       | pd bs answers Hrow' Hchain' _ Hlen Hok Htrace _ _
       | pd bs k answers block created published Hrow' Hchain' Hnth Hlen Hok
           Hfail Htrace _ _];
    same_row Hrow Hrow' Hchain Hchain'; try congruence.
  - rewrite Htrace. unfold attempt. simpl. split; [lia | intros; lia].
  - destruct (chain_facts (user_id E) (access_token E) blocks 0 JNull answers
                Hlen Hok) as (Hcs & _).
    destruct (chain_creates (user_id E) (access_token E) blocks 0 JNull answers
                Hlen) as (Hrqs & _).
    cbv zeta in *. rewrite Htrace. unfold attempt.
    change (?x :: ?l ++ ?r) with ([x] ++ l ++ r).
    rewrite !creates_app, !publishes_app.
    cbn [creates publishes summary app]. rewrite !app_nil_r.
    rewrite Hcs. split; [lia | exact Hrqs].
  - assert (Hk : (k < List.length blocks)%nat)
      by (apply nth_error_Some; now rewrite Hnth).
    assert (Hlen' : List.length answers = List.length (firstn k blocks))
      by (rewrite firstn_length_le; lia).
    destruct (chain_facts (user_id E) (access_token E) (firstn k blocks) 0
                JNull answers Hlen' Hok) as (Hcs & Hps & _).
    destruct (chain_creates (user_id E) (access_token E) (firstn k blocks) 0
                JNull answers Hlen') as (Hrqs & Hlast).
    cbv zeta in *. rewrite Htrace. unfold attempt.
    change (?x :: ?l ++ ?r) with ([x] ++ l ++ r).
    rewrite !creates_app, !publishes_app.
    set (turns := chain_events (user_id E) (access_token E) 0 (firstn k blocks)
                    JNull answers) in *.
    rewrite firstn_length_le in Hcs, Hps, Hrqs, Hlast by lia.
    assert (Hturn : creates (failed_turn (user_id E) (access_token E) k block
                               (last_published JNull answers) created published)
                    = [(create_request (user_id E) block (access_token E)
                          (last_published JNull answers), created)])
      by (destruct published; reflexivity).
    rewrite Hturn. cbn [creates publishes app].
    rewrite length_app, Hcs. cbn [List.length].
    split; [lia|].
    intros i Hi. destruct (Nat.eq_dec i k) as [-> | Hne].
    + rewrite app_nth2 by lia. rewrite Hcs, Nat.sub_diag. cbn [nth fst].
      rewrite (nth_error_nth blocks k "" Hnth), Hlast.
      destruct k as [|j]; [reflexivity|].
      now rewrite app_nth1 by lia.
    + rewrite app_nth1 by lia. rewrite Hrqs by lia.
      rewrite nth_firstn.
      replace (i <? k)%nat with true by (symmetry; apply Nat.ltb_lt; lia).
      destruct i as [|j]; [reflexivity|].
      now rewrite app_nth1 by lia.
Qed.

Lemma blocks_created_in_order_witness :
  let tr := trace (snd (run (script (example_env no_fault (failing_at 2)))
                          (start example_sheet))) in
  (List.length (creates tr) <= List.length ["first"; "third"] <= 4)%nat
  /\ forall i, (i < List.length (creates tr))%nat ->
       fst (nth i (creates tr) no_call)
       = create_request "42" (nth i ["first"; "third"] "") "token"
           match i with
           | O => JNull
           | S j => id_of (snd (nth j (publishes tr) no_call))
           end.
Proof.
  apply (blocks_created_in_order (example_env no_fault (failing_at 2))
           example_sheet example_row ["first"; "third"]); reflexivity.
Defined.

(** ** The sheet *)

Lemma updates_done_app (a b : list event) :
  updates_done (a ++ b) = (updates_done a + updates_done b)%nat.
Proof.
  induction a as [|ev a IH]; simpl; auto.
  destruct ev; simpl; auto. destruct returned; simpl; auto.
Qed.

Lemma updates_done_chain (user access : string) (blocks : list string) :
  forall (i : nat) (last_post_id : json)
         (answers : list (http_result * http_result)),
    updates_done (chain_events user access i blocks last_post_id answers)
    = 0%nat.
Proof.
  induction blocks as [|block rest IH]; intros i last_post_id answers;
    [reflexivity|].
  destruct answers as [|[created published] answers]; [reflexivity|].
  simpl. apply IH.
Qed.

(** No run changes the worksheet, and no status update of a run returns
    [True]. *)
Lemma run_keeps_sheet (E : Env) (g : grid) :
  sheet (snd (run (script E) (start g))) = g
  /\ updates_done (trace (snd (run (script E) (start g)))) = 0%nat.
Proof.
  destruct (run_has_shape E g)
    as [Hrow Htrace Hsheet _
       | pd Hrow Hchain Htrace Hsheet _
       | pd Hrow Hchain Htrace Hsheet _ _
       | pd bs answers Hrow Hchain _ Hlen Hok Htrace Hsheet _
       | pd bs k answers block created published Hrow Hchain Hnth Hlen Hok
           Hfail Htrace Hsheet _];
    (split; [exact Hsheet|]); rewrite Htrace; unfold attempt;
    try reflexivity;
    change (?x :: ?l ++ ?r) with ([x] ++ l ++ r);
    rewrite !updates_done_app, updates_done_chain;
    [reflexivity | destruct published; reflexivity].
Qed.

(** X13.  The status updates look the row up in the first column of the
    worksheet and the status in the column headed Status, while the row to
    post is looked up under the header Post_ID.  When the first column of
    the worksheet has no cell equal to the post identifier, or the header
    row has no Status cell, no status update of the run goes through and
    the run leaves the worksheet exactly as it found it, whether it posts
    the chain or not. *)
Theorem status_needs_first_column (E : Env) (g : grid) :
  find g (nth 2 (argv E) "") = None
  \/ index (row_values g 1) "Status" = None ->
  sheet (snd (run (script E) (start g))) = g
  /\ updates_done (trace (snd (run (script E) (start g)))) = 0%nat.
Proof. intros _. apply run_keeps_sheet. Qed.

Lemma status_needs_first_column_witness :
  let E := example_env no_fault numbering in
  fst (run (script E) (start numbered_sheet)) = 0
  /\ sheet (snd (run (script E) (start numbered_sheet))) = numbered_sheet
  /\ updates_done (trace (snd (run (script E) (start numbered_sheet)))) = 0%nat.
Proof.
  split; [reflexivity|].
  apply (status_needs_first_column (example_env no_fault numbering)
           numbered_sheet).
  left. reflexivity.
Defined.

(** ** What a status update does *)

(** X14.  [update_post_status] never raises and never returns [True].
    It looks for the row, reads the header row and builds the list of
    (row, column, value) tuples, and the call that would write them
    raises; the function returns [False].  It stops earlier, after one
    call into the library, when the lookup raises or finds no row, and
    after two, when the reading of the header row raises or the header
    row has no Status cell.  In every case it leaves the worksheet as it
    was. *)
Theorem update_post_status_returns_false (E : Env) (post_id status : string)
    (threads_post_id : json) (w : World) :
  exists w',
    update_post_status E post_id status threads_post_id w = (Ret false, w')
    /\ sheet w' = sheet w
    /\ trace w'
       = trace w ++ [EvStatus status threads_post_id (sheet w) (sheet w) false]
    /\ sheet_calls w'
       = (sheet_calls w
          + if sheet_fault E (sheet_calls w) then 1
            else match find (sheet w) post_id with
                 | None => 1
                 | Some _ =>
                     if sheet_fault E (S (sheet_calls w)) then 2
                     else match index (row_values (sheet w) 1) "Status" with
                          | None => 2
                          | Some _ => 3
                          end
                 end)%nat.
Proof.
  unfold update_post_status, try_update, batch_update, bind, ret, gets, log,
    modify, sheet_call; simpl.
  destruct (sheet_fault E (sheet_calls w)); simpl.
  { eexists. repeat split; simpl; lia. }
  destruct (find (sheet w) post_id) as [row_index|]; simpl.
  2:{ eexists. repeat split; simpl; lia. }
  destruct (sheet_fault E (S (sheet_calls w))); simpl.
  { eexists. repeat split; simpl; lia. }
  destruct (index (row_values (sheet w) 1) "Status") as [i|]; simpl.
  2:{ eexists. repeat split; simpl; lia. }
  rewrite orb_true_r. simpl.
  eexists. repeat split; simpl; lia.
Qed.

End PublisherFacts.

(* ===================================================================== *)
(** * The Publisher: failures, blank blocks, waits, status updates *)
(* ===================================================================== *)

Module PublisherRuns.

Import Publisher PublisherTerms PublisherSpec.

Local Open Scope script_scope.

(** ** C2 *)

Lemma failed_turn_calls (user access : string) (i : nat) (block : string)
    (last_post_id : json) (created : http_result)
    (published : option http_result) :
  turn_failed created published ->
  exists calls failed,
    api_calls (failed_turn user access i block last_post_id created published)
    = calls ++ [failed]
    /\ forallb (fun call => succeeded (snd call)) calls = true
    /\ succeeded (snd failed) = false
    /\ List.length
         (creates (failed_turn user access i block last_post_id created
                     published)) = 1%nat
    /\ (List.length
          (publishes (failed_turn user access i block last_post_id created
                        published)) <= 1)%nat
    /\ status_writes
         (failed_turn user access i block last_post_id created published) = [].
Proof.
  destruct published as [published|]; simpl.
  - intros [Hc Hp].
    exists [(create_request user block access last_post_id, created)],
      (publish_request user (id_of created) access, published).
    simpl. rewrite Hc. repeat split; auto.
  - intros Hc.
    exists [], (create_request user block access last_post_id, created).
    simpl. repeat split; auto.
Qed.

(** C2.  Take a row with its chain and a run in which a create or a
    publish call fails, for block k.  The failed call is the last call to
    the platform: the run has made k+1 create calls and at most k+1
    publish calls, none for a block after k.  It then calls
    [update_post_status] with the error status, as its last action, and
    ends with code 1.  But that call returns [False], as every call of
    it does, and the worksheet, the status cell of the row with it, is
    what it was before the run: the status is not set to the error
    value. *)
Theorem failure_aborts (E : Env) (g : grid) (post_data : dict)
    (blocks : list string) :
  row_read E (start g) = Some post_data ->
  chain_of post_data = Some blocks ->
  all_succeeded (trace (snd (run (script E) (start g)))) = false ->
  let w' := snd (run (script E) (start g)) in
  let tr := trace w' in
  exists k block calls failed,
    nth_error blocks k = Some block
    /\ List.length (creates tr) = S k
    /\ (List.length (publishes tr) <= S k)%nat
    /\ api_calls tr = calls ++ [failed]
    /\ forallb (fun call => succeeded (snd call)) calls = true
    /\ succeeded (snd failed) = false
    /\ status_writes tr = [("Posting", JNull); ("Error", JNull)]
    /\ last tr (EvSleep 0) = EvStatus "Error" JNull g g false
    /\ fst (run (script E) (start g)) = 1
    /\ sheet w' = g
    /\ status_cell (sheet w') (nth 2 (argv E) "")
       = status_cell g (nth 2 (argv E) "").
Proof.
  intros Hrow Hchain Hall. cbv zeta.
  destruct (run_has_shape E g)
    as [Hrow' _ _ _
       | pd Hrow' Hchain' _ _ _
       | pd Hrow' Hchain' Htrace _ _ _
       | pd bs answers Hrow' Hchain' _ Hlen Hok Htrace _ _
       | pd bs k answers block created published Hrow' Hchain' Hnth Hlen Hok
           Hfail Htrace Hsheet Hcode];
    same_row Hrow Hrow' Hchain Hchain'; try congruence.
  - (* no block: no call, so none failed *)
    rewrite Htrace in Hall. discriminate Hall.
  - (* posted: every call succeeded *)
    destruct (chain_facts (user_id E) (access_token E) blocks 0 JNull answers
                Hlen Hok) as (_ & _ & _ & _ & Hgood & _).
    cbv zeta in Hgood. rewrite Htrace in Hall. unfold attempt in Hall.
    change (?x :: ?l) with ([x] ++ l) in Hall.
    rewrite !all_succeeded_app, Hgood in Hall. discriminate Hall.
  - (* turn k failed *)
    assert (Hk : (k < List.length blocks)%nat)
      by (apply nth_error_Some; now rewrite Hnth).
    assert (Hlen' : List.length answers = List.length (firstn k blocks))
      by (rewrite firstn_length_le; lia).
    destruct (chain_facts (user_id E) (access_token E) (firstn k blocks) 0
                JNull answers Hlen' Hok)
      as (Hcs & Hps & _ & Hst & Hgood & _).
    destruct (failed_turn_calls (user_id E) (access_token E) k block
                (last_published JNull answers) created published Hfail)
      as (calls & failed & Hcalls & Hcalls_ok & Hfailed & Hc1 & Hp1 & Hs1).
    cbv zeta in *. rewrite firstn_length_le in Hcs, Hps by lia.
    exists k, block,
      (api_calls (chain_events (user_id E) (access_token E) 0
                    (firstn k blocks) JNull answers) ++ calls), failed.
    rewrite Htrace, Hsheet. unfold attempt.
    change (?x :: ?l ++ ?r) with ([x] ++ l ++ r).
    rewrite !creates_app, !publishes_app, !api_calls_app, !status_writes_app,
      !length_app, Hcs, Hps, Hc1, Hst, Hs1, Hcalls.
    cbn [creates publishes api_calls status_writes List.length app].
    rewrite forallb_app, Hcalls_ok.
    unfold all_succeeded in Hgood. rewrite Hgood.
    repeat split; auto; try lia.
    + now rewrite app_nil_r, app_assoc.
    + rewrite !app_assoc.
      apply (last_last (EvStatus "Posting" JNull g g false :: _)).
Qed.

(** The example row on the platform whose third call, the create call for
    the second block, fails: the status cell still reads Ready. *)
Lemma failure_aborts_witness :
  let E := example_env no_fault (failing_at 2) in
  let w' := snd (run (script E) (start example_sheet)) in
  (exists k block calls failed,
     nth_error ["first"; "third"] k = Some block
     /\ List.length (creates (trace w')) = S k
     /\ (List.length (publishes (trace w')) <= S k)%nat
     /\ api_calls (trace w') = calls ++ [failed]
     /\ forallb (fun call => succeeded (snd call)) calls = true
     /\ succeeded (snd failed) = false
     /\ status_writes (trace w') = [("Posting", JNull); ("Error", JNull)]
     /\ last (trace w') (EvSleep 0) = EvStatus "Error" JNull example_sheet
                                        example_sheet false
     /\ fst (run (script E) (start example_sheet)) = 1
     /\ sheet w' = example_sheet
     /\ status_cell (sheet w') "p1" = status_cell example_sheet "p1")
  /\ status_cell example_sheet "p1" = Some (JStr "Ready").
Proof.
  split; [|reflexivity].
  apply (failure_aborts (example_env no_fault (failing_at 2)) example_sheet
           example_row ["first"; "third"]); reflexivity.
Defined.

(** ** C7 *)




(** ** C9 *)

(** A create call among the turns that went through: it succeeded, it is
    the create call of the block whose number is the number of create
    calls before it, and what follows it is the wait of that turn and the
    publish call for its container. *)
Lemma chain_after_create (user access : string) (blocks : list string) :
  forall (i : nat) (last_post_id : json)
         (answers : list (http_result * http_result))
         (pre post : list event) (rq : http_request) (rs : http_result),
    List.length answers = List.length blocks ->
    forallb both_succeeded answers = true ->
    chain_events user access i blocks last_post_id answers
    = pre ++ EvCreate rq rs :: post ->
    let j := List.length (creates pre) in
    succeeded rs = true
    /\ (j < List.length blocks)%nat
    /\ text_of rq = Some (JStr (nth j blocks ""))
    /\ exists answer rest,
         post = EvSleep (publish_delay (i + j))
                :: EvPublish (publish_request user (id_of rs) access) answer
                :: rest.
Proof.
  induction blocks as [|block rest IH];
    intros i last_post_id answers pre post rq rs Hlen Hall Heq.
  - destruct answers; [|discriminate]. simpl in Heq.
    destruct pre; discriminate.
  - destruct answers as [|[created published] answers]; [discriminate|].
    injection Hlen as Hlen. simpl in Hall.
    apply andb_true_iff in Hall. destruct Hall as [Hboth Hall].
    apply andb_true_iff in Hboth. destruct Hboth as [Hc Hp].
    cbn [fst snd] in Hc, Hp. cbn [chain_events] in Heq.
    destruct pre as [|e0 pre]; [|destruct pre as [|e1 pre];
                                 [|destruct pre as [|e2 pre]]];
      simpl in Heq; try discriminate.
    + injection Heq as <- <- <-. cbv zeta. simpl.
      rewrite Nat.add_0_r. repeat split; auto; try lia. eauto.
    + injection Heq as <- <- <- Heq.
      destruct (IH (S i) (id_of published) answers pre post rq rs Hlen Hall
                  Heq) as (Hok & Hj & Htext & answer & rest' & ->).
      cbv zeta. cbn [creates List.length nth].
      replace (i + S (List.length (creates pre)))%nat
        with (S i + List.length (creates pre))%nat by lia.
      repeat split; auto; try lia. eauto.
Qed.

Lemma split_in {A} (l pre post : list A) (x : A) :
  l = pre ++ x :: post -> In x l.
Proof. intros ->. apply in_elt. Qed.

(** Where an element of [l ++ tail] lies: in [l], or in [tail]. *)
Lemma split_app {A} (l tail pre post : list A) (x : A) :
  l ++ tail = pre ++ x :: post ->
  (exists m, l = pre ++ x :: m /\ post = m ++ tail)
  \/ (exists m, pre = l ++ m /\ tail = m ++ x :: post).
Proof.
  intros Heq. apply app_eq_app in Heq.
  destruct Heq as (m & [[Hl Hpost] | [Hpre Htail]]).
  - destruct m as [|y m].
    + right. exists []. rewrite app_nil_r in Hl. subst l.
      now rewrite app_nil_r.
    + injection Hpost as <- ->. left. eauto.
  - right. eauto.
Qed.

(** The create call of the turn that failed is the only one after the
    turns that went through. *)
Lemma failed_turn_create (user access : string) (i : nat) (block : string)
    (last_post_id : json) (created : http_result)
    (published : option http_result) (marked : event)
    (m post : list event) (rq : http_request) (rs : http_result) :
  is_create marked = false ->
  failed_turn user access i block last_post_id created published ++ [marked]
  = m ++ EvCreate rq rs :: post ->
  m = []
  /\ rq = create_request user block access last_post_id
  /\ rs = created
  /\ post = match published with
            | None => []
            | Some published =>
                [EvSleep (publish_delay i);
                 EvPublish (publish_request user (id_of created) access)
                   published]
            end ++ [marked].
Proof.
  intros Hmarked Heq. unfold failed_turn in Heq. simpl in Heq.
  destruct m as [|e m].
  - injection Heq as <- <- <-. auto.
  - injection Heq as _ Heq. apply split_in in Heq. exfalso.
    destruct published; simpl in Heq;
      repeat (destruct Heq as [Heq | Heq]; [subst; discriminate|]);
      contradiction.
Qed.

(** C9.  Take any create call of any run, and let i be the number of
    create calls the run made before it, which is the number of the block
    it creates (its text is block i of the chain).  If the call returned a
    container, the next two things the run does are to wait, 30 seconds
    when i is 0 and 10 seconds otherwise, and to request the publication
    of that very container.  If it returned none, the run neither waits
    nor publishes any more. *)
Theorem publish_waits (E : Env) (g : grid) (pre post : list event)
    (rq : http_request) (rs : http_result) :
  trace (snd (run (script E) (start g))) = pre ++ EvCreate rq rs :: post ->
  let i := List.length (creates pre) in
  (forall post_data blocks,
     row_read E (start g) = Some post_data ->
     chain_of post_data = Some blocks ->
     text_of rq = Some (JStr (nth i blocks "")))
  /\ (succeeded rs = true ->
      exists answer rest,
        post = EvSleep (if (i =? 0)%nat then 30 else 10)
               :: EvPublish (publish_request (user_id E) (id_of rs)
                               (access_token E)) answer
               :: rest)
  /\ (succeeded rs = false -> sleeps post = [] /\ publishes post = []).
Proof.
  intros Hsplit. cbv zeta.
  destruct (run_has_shape E g)
    as [Hrow Htrace _ _
       | pd Hrow Hchain Htrace _ _
       | pd Hrow Hchain Htrace _ _ _
       | pd bs answers Hrow Hchain _ Hlen Hok Htrace _ _
       | pd bs k answers block created published Hrow Hchain Hnth Hlen Hok
           Hfail Htrace _ _];
    rewrite Htrace in Hsplit; unfold attempt in Hsplit.
  - destruct pre; discriminate.
  - destruct pre; discriminate.
  - apply split_in in Hsplit. simpl in Hsplit.
    destruct Hsplit as [H | [H | []]]; discriminate.
  - (* posted *)
    destruct pre as [|e0 pre]; [discriminate|].
    injection Hsplit as <- Hsplit. cbn [creates].
    apply split_app in Hsplit.
    destruct Hsplit as [(m & Hturns & ->) | (m & _ & Htail)].
    2:{ exfalso. apply split_in in Htail. simpl in Htail.
        destruct Htail as [H | [H | []]]; discriminate. }
    destruct (chain_after_create (user_id E) (access_token E) bs 0 JNull
                answers pre m rq rs Hlen Hok Hturns)
      as (Hgood & Hj & Htext & answer & rest & ->).
    split; [|split].
    + intros pd' bs' Hrow' Hchain'. same_row Hrow Hrow' Hchain Hchain'.
      exact Htext.
    + intros _. exists answer. eexists. simpl. reflexivity.
    + intros Hbad. congruence.
  - (* a turn failed *)
    assert (Hk : (k < List.length bs)%nat)
      by (apply nth_error_Some; now rewrite Hnth).
    assert (Hlen' : List.length answers = List.length (firstn k bs))
      by (rewrite firstn_length_le; lia).
    destruct pre as [|e0 pre]; [discriminate|].
    injection Hsplit as <- Hsplit. cbn [creates].
    apply split_app in Hsplit.
    destruct Hsplit as [(m & Hturns & ->) | (m & -> & Htail)].
    + destruct (chain_after_create (user_id E) (access_token E) (firstn k bs)
                  0 JNull answers pre m rq rs Hlen' Hok Hturns)
        as (Hgood & Hj & Htext & answer & rest & ->).
      rewrite firstn_length_le in Hj by lia.
      split; [|split].
      * intros pd' bs' Hrow' Hchain'. same_row Hrow Hrow' Hchain Hchain'.
        rewrite Htext, nth_firstn.
        replace (List.length (creates pre) <? k)%nat with true
          by (symmetry; apply Nat.ltb_lt; lia).
        reflexivity.
      * intros _. exists answer. eexists. simpl. reflexivity.
      * intros Hbad. congruence.
    + apply failed_turn_create in Htail; [|reflexivity].
      destruct Htail as (-> & -> & -> & ->).
      destruct (chain_facts (user_id E) (access_token E) (firstn k bs) 0
                  JNull answers Hlen' Hok) as (Hcs & _).
      cbv zeta in Hcs. rewrite firstn_length_le in Hcs by lia.
      rewrite app_nil_r, Hcs.
      split; [|split].
      * intros pd' bs' Hrow' Hchain'. same_row Hrow Hrow' Hchain Hchain'.
        now rewrite text_of_create, (nth_error_nth bs k "" Hnth).
      * intros Hgood. destruct published as [published|].
        -- eexists. eexists. simpl. reflexivity.
        -- simpl in Hfail. congruence.
      * intros Hbad. destruct published as [published|].
        -- destruct Hfail as [Hgood _]. congruence.
        -- split; reflexivity.
Qed.

(** The first create call of the example run: the run waits 30 seconds
    and publishes the container "id0". *)
Lemma publish_waits_witness :
  let E := example_env no_fault numbering in
  let tr := trace (snd (run (script E) (start example_sheet))) in
  let rs := HttpJson (JObj [("id", JStr "id0")]) in
  exists answer rest,
    skipn 2 tr
    = EvSleep 30
      :: EvPublish (publish_request "42" (id_of rs) "token") answer :: rest.
Proof.
  cbv zeta.
  apply (proj1 (proj2 (publish_waits (example_env no_fault numbering)
                         example_sheet
                         [EvStatus "Posting" JNull example_sheet example_sheet
                            false]
                         (skipn 2 (trace (snd (run (script (example_env
                                                              no_fault
                                                              numbering))
                                                 (start example_sheet)))))
                         (create_request "42" "first" "token" JNull)
                         (HttpJson (JObj [("id", JStr "id0")]))
                         ltac:(vm_compute; reflexivity)))).
  reflexivity.
Defined.

(** ** C6 *)











(** ** C10 *)






End PublisherRuns.
